(** * Address validation: the classifier of [address_validate.py]

    A shallow embedding of the request builder, the classifier
    ([parse_validation_result]) and the batch driver of
    [src/address_validate.py], together with the properties the
    specification states about them.

    The classifier receives whatever [response.json()] produced, so its
    input is modelled as an arbitrary decoded JSON value with Python's
    dynamic semantics ([.get] exists on dicts only, [in] depends on the
    container, truthiness, hashing).  Exceptions are explicit: every
    fallible step lives in the error monad [res]. *)

From Stdlib Require Import ZArith String List Bool.
From Stdlib Require Import Floats.SpecFloat.
From stdpp Require Import gmap strings list fin_maps pretty.

Set Warnings "-register-all".
Local Open Scope string_scope.
Local Open Scope list_scope.

(* ===================================================================== *)
(** ** Python values, exceptions and the operations the program uses     *)
(* ===================================================================== *)

Module Py.

(** What [json.loads] can build: [None], booleans, integers, floats
    (binary64, kept as [spec_float]), strings, lists and string-keyed
    dicts. *)
Inductive pyval : Type :=
| PNone
| PBool (b : bool)
| PInt (z : Z)
| PFloat (f : spec_float)
| PStr (s : string)
| PList (l : list pyval)
| PDict (d : gmap string pyval).

(** The exceptions the modelled code can raise.  All of them derive from
    [Exception], so a bare [except Exception] catches each one. *)
Inductive exn : Type :=
| AttributeError (ty attr : string)   (* '<ty>' object has no attribute '<attr>' *)
| NotContainer (ty : string)          (* TypeError: [x in v] on a value that is no container *)
| BadIndex (ty : string)              (* TypeError: [v['k']] on a list, str or scalar *)
| Unhashable (ty : string)            (* TypeError: unhashable type: '<ty>' *)
| KeyError (k : string)
| ValueError (msg : string)
| HTTPError (msg : string).

Inductive res (A : Type) : Type :=
| Ok (a : A)
| Raise (e : exn).
Arguments Ok {A} a.
Arguments Raise {A} e.

#[global] Instance res_ret : MRet res := fun _ a => Ok a.
#[global] Instance res_bind : MBind res := fun _ _ f m =>
  match m with
  | Ok a => f a
  | Raise e => Raise e
  end.

(** The two things the interpreter prints that are left open: [repr] of a
    value that is not a string, and the message [str(e)] of an exception
    (its wording changes between CPython releases). *)
Record runtime : Type := {
  repr_nonstr : pyval -> string;
  exn_str : exn -> string
}.

Definition type_name (v : pyval) : string :=
  match v with
  | PNone => "NoneType"
  | PBool _ => "bool"
  | PInt _ => "int"
  | PFloat _ => "float"
  | PStr _ => "str"
  | PList _ => "list"
  | PDict _ => "dict"
  end.

(** [bool(v)] *)
Definition truthy (v : pyval) : bool :=
  match v with
  | PNone => false
  | PBool b => b
  | PInt z => negb (z =? 0)%Z
  | PFloat (S754_zero _) => false
  | PFloat _ => true
  | PStr EmptyString => false
  | PStr _ => true
  | PList [] => false
  | PList _ => true
  | PDict d => negb (Nat.eqb (size d) 0)
  end.

(** [str(v)], as an f-string field formats it *)
Definition py_str (rt : runtime) (v : pyval) : string :=
  match v with
  | PStr s => s
  | _ => repr_nonstr rt v
  end.

(** [v == "lit"]: only a string equals a string *)
Definition eq_str (v : pyval) (lit : string) : bool :=
  match v with
  | PStr s => String.eqb s lit
  | _ => false
  end.

(** [needle in hay] for two strings *)
Definition is_substring (needle hay : string) : bool :=
  match String.index 0 needle hay with
  | Some _ => true
  | None => false
  end.

(** ["k" in v] *)
Definition contains_str (v : pyval) (k : string) : res bool :=
  match v with
  | PDict d => Ok (bool_decide (is_Some (d !! k)))
  | PList l => Ok (existsb (fun x => eq_str x k) l)
  | PStr s => Ok (is_substring k s)
  | _ => Raise (NotContainer (type_name v))
  end.

(** [v["k"]] *)
Definition getitem_str (v : pyval) (k : string) : res pyval :=
  match v with
  | PDict d =>
      match d !! k with
      | Some x => Ok x
      | None => Raise (KeyError k)
      end
  | _ => Raise (BadIndex (type_name v))
  end.

(** [v.get("k", dflt)] *)
Definition get (v : pyval) (k : string) (dflt : pyval) : res pyval :=
  match v with
  | PDict d => Ok (default dflt (d !! k))
  | _ => Raise (AttributeError (type_name v) "get")
  end.

(** [hash(v)], needed before a set or dict lookup *)
Definition hash_check (v : pyval) : res unit :=
  match v with
  | PList _ => Raise (Unhashable "list")
  | PDict _ => Raise (Unhashable "dict")
  | _ => Ok tt
  end.

(** [v in ["a", "b"]]: a list test compares with [==] *)
Definition in_str_list (v : pyval) (lits : list string) : bool :=
  existsb (eq_str v) lits.

(** [v in {"a", "b"}]: a set test hashes first *)
Definition in_str_set (v : pyval) (lits : list string) : res bool :=
  _ ← hash_check v; Ok (in_str_list v lits).

(** [a and b]: [b] is evaluated only when [a] is truthy, and the value is
    an operand, not a boolean *)
Definition and_ (a b : res pyval) : res pyval :=
  x ← a; if truthy x then b else Ok x.

(** [not a] *)
Definition not_ (a : res pyval) : res pyval :=
  x ← a; Ok (PBool (negb (truthy x))).

End Py.
Import Py.

(* ===================================================================== *)
(** ** The classifier                                                     *)
(* ===================================================================== *)

(** [_map_dpv_confirmation]'s table *)
Definition dpv_mapping : gmap string string :=
  list_to_map
    [ ("Y", "Address confirmed (Primary and secondary if present).");
      ("N", "Address not confirmed (No primary or secondary match).");
      ("D", "Primary confirmed, but secondary information is missing.");
      ("S", "Primary confirmed, secondary information exists but was not provided in the input.");
      ("C", "Address confirmed, but it is a Commercial Mail Receiving Agency (CMRA).");
      ("B", "Primary confirmed, but it is a PO Box or equivalent.") ].

Definition unknown_dpv : string := "Unknown DPV Confirmation Code".

(** [mapping.get(code, "Unknown DPV Confirmation Code")] *)
Definition _map_dpv_confirmation (code : pyval) : res string :=
  _ ← hash_check code;
  Ok match code with
     | PStr c => default unknown_dpv (dpv_mapping !! c)
     | _ => unknown_dpv
     end.

(** The if/elif chain over [validation_granularity] (lines 141-164) *)
Definition granularity_status (g : pyval) : string * bool :=
  if eq_str g "SUB_PREMISE" then
    ("Highly Mailable Address (Validated to sub-unit)", true)
  else if eq_str g "PREMISE" then
    ("Standard Mailable Address (Validated to building)", true)
  else if eq_str g "STREET" then
    ("Partial Address (Street-level only, may not be reliably mailable)", true)
  else if eq_str g "LOCALITY" then
    ("Non-Mailable Address (Only city-level validated)", false)
  else if eq_str g "REGION" then
    ("Non-Mailable Address (Only region/state validated)", false)
  else if eq_str g "COUNTRY" then
    ("Non-Mailable Address (Only country validated)", false)
  else if eq_str g "OTHER" then
    ("Non-Mailable Address (Unknown or unvalidated)", false)
  else
    ("Non-Mailable Address (Unknown validation granularity)", false).

Definition inferred_note : string := " — Note: Some components were inferred.".

(** The dict both escape hatches return (lines 121-129 and 222-230) *)
Definition error_row (original_address status : string) : gmap string pyval :=
  <["original_address" := PStr original_address]>
  (<["validated_address" := PStr original_address]>
  (<["is_valid" := PBool false]>
  (<["validation_status" := PStr status]>
  (<["lat" := PNone]>
  (<["lng" := PNone]>
  (<["usps_data" := PNone]> ∅)))))).

(** The dict the classification path returns (lines 206-219) *)
Definition classified_row (original_address : string) (formatted_address : pyval)
    (is_valid : bool) (status : string)
    (is_po_box is_dpv_confirmed is_confirmed
     is_vacant is_no_stat is_cmra is_undeliverable : pyval)
    (dpv_confirmation_description : string) : gmap string pyval :=
  <["original_address" := PStr original_address]>
  (<["validated_address" := formatted_address]>
  (<["is_valid" := PBool is_valid]>
  (<["validation_status" := PStr status]>
  (<["is_po_box" := is_po_box]>
  (<["is_dpv_confirmed" := is_dpv_confirmed]>
  (<["is_confirmed" := is_confirmed]>
  (<["is_vacant" := is_vacant]>
  (<["is_no_stat" := is_no_stat]>
  (<["is_cmra" := is_cmra]>
  (<["is_undeliverable" := is_undeliverable]>
  (<["dpv_confirmation_description" := PStr dpv_confirmation_description]> ∅))))))))))).

Section Classifier.
Context (rt : runtime).

(** The body of the [try] block (lines 132-219) *)
Definition parse_body (result : pyval) (original_address region_code : string)
    (enable_usps_cass : bool) : res (gmap string pyval) :=
  validation_result ← get result "result" (PDict ∅);
  verdict ← get validation_result "verdict" (PDict ∅);
  address_obj ← get validation_result "address" (PDict ∅);
  validation_granularity ← get verdict "validationGranularity" (PStr "UNKNOWN");
  address_complete ← get verdict "addressComplete" (PBool false);
  has_inferred ← get verdict "hasInferredComponents" (PBool false);
  let '(status, is_valid) := granularity_status validation_granularity in
  add_note ←
    (if truthy has_inferred
     then in_str_set validation_granularity ["SUB_PREMISE"; "PREMISE"; "STREET"]
     else Ok false);
  let status := if add_note : bool then status +:+ inferred_note else status in
  formatted_address ← get address_obj "formattedAddress" (PStr original_address);
  geocode ← get validation_result "geocode" (PDict ∅);
  location ← get geocode "location" (PDict ∅);
  lat ← get location "lat" PNone;
  lng ← get location "lng" PNone;
  usps_data ← get validation_result "uspsData" (PDict ∅);
  metadata ← get validation_result "metadata" (PDict ∅);
  is_po_box ←
    (if String.eqb region_code "US" then get metadata "poBox" (PBool false)
     else Ok (PBool false));
  is_dpv_confirmed ←
    (if String.eqb region_code "US"
     then c ← get usps_data "dpvConfirmation" PNone; Ok (PBool (eq_str c "Y"))
     else Ok (PBool false));
  dpv_confirmation ← get usps_data "dpvConfirmation" (PStr "N/A");
  dpv_confirmation_description ← _map_dpv_confirmation dpv_confirmation;
  is_confirmed ←
    and_ (g ← get verdict "validationGranularity" PNone;
          Ok (PBool (in_str_list g ["PREMISE"; "SUB_PREMISE"])))
   (and_ (get verdict "addressComplete" PNone)
   (and_ (not_ (get verdict "hasInferredComponents" PNone))
   (and_ (not_ (get verdict "hasReplacedComponents" PNone))
   (and_ (not_ (get verdict "unconfirmedComponentTypes" PNone))
   (and_ (not_ (get verdict "missingComponentTypes" PNone))
         (not_ (get verdict "unresolvedTokens" PNone)))))));
  is_confirmed ←
    (if String.eqb region_code "US" && enable_usps_cass
     then and_ (Ok is_confirmed)
               (c ← get usps_data "dpvConfirmation" PNone; Ok (PBool (eq_str c "Y")))
     else Ok is_confirmed);
  is_vacant ← get usps_data "dpvVacant" (PBool false);
  is_no_stat ← get usps_data "dpvNoStat" (PBool false);
  is_cmra ← get usps_data "dpvCmra" (PBool false);
  is_undeliverable ← get usps_data "undeliverable" (PBool false);
  Ok (classified_row original_address formatted_address is_valid status
        is_po_box is_dpv_confirmed is_confirmed
        is_vacant is_no_stat is_cmra is_undeliverable
        dpv_confirmation_description).

(** [parse_validation_result(result, original_address, region_code,
    enable_usps_cass)].  The ["error" in result] test and the f-string of
    the API-error row sit before the [try]; what they raise propagates. *)
Definition parse_validation_result (result : pyval)
    (original_address region_code : string) (enable_usps_cass : bool)
    : res (gmap string pyval) :=
  has_error ← contains_str result "error";
  if has_error : bool then
    e ← getitem_str result "error";
    Ok (error_row original_address ("API Error: " +:+ py_str rt e))
  else
    match parse_body result original_address region_code enable_usps_cass with
    | Ok row => Ok row
    | Raise e => Ok (error_row original_address ("Parse Error: " +:+ exn_str rt e))
    end.

End Classifier.

(* ===================================================================== *)
(** ** The request builder                                                *)
(* ===================================================================== *)

(** A geocoder result at the shape the Geocoding API documents: names are
    strings and [types] is a list of tags.  Every key may be missing:
    [.get] then falls back to its default and [comp['k']] raises
    [KeyError]. *)
Record component : Type := {
  types : option (list string);
  long_name : option string;
  short_name : option string
}.

Record geocode_result : Type := {
  address_components : option (list component);
  formatted_address : option string
}.

(** The [components] dict while the loop fills it *)
Record components : Type := {
  locality : option string;
  administrativeArea : option string;
  regionCode : option string;
  postalCode : option string
}.

(** [{"address": components}] as it is posted *)
Record validation_request : Type := {
  req_locality : option string;
  req_administrativeArea : option string;
  req_regionCode : string;
  req_postalCode : option string;
  addressLines : list string
}.

(** [comp['k']] *)
Definition comp_key {A} (k : string) (field : option A) : res A :=
  match field with
  | Some x => Ok x
  | None => Raise (KeyError k)
  end.

Definition mem (x : string) (l : list string) : bool := bool_decide (x ∈ l).

Definition poi_tags : list string := ["point_of_interest"; "establishment"; "university"].

(** One round of the loop over [address_components] (lines 37-49) *)
Definition file_component (st : components * list string) (comp : component)
    : res (components * list string) :=
  let '(cs, poi_names) := st in
  tys ← comp_key "types" (types comp);
  if existsb (fun t => mem t tys) poi_tags then
    name ← comp_key "long_name" (long_name comp);
    if mem name poi_names then Ok (cs, poi_names) else Ok (cs, poi_names ++ [name])
  else if mem "locality" tys then
    name ← comp_key "long_name" (long_name comp);
    Ok ({| locality := Some name; administrativeArea := administrativeArea cs;
           regionCode := regionCode cs; postalCode := postalCode cs |}, poi_names)
  else if mem "administrative_area_level_1" tys then
    name ← comp_key "short_name" (short_name comp);
    Ok ({| locality := locality cs; administrativeArea := Some name;
           regionCode := regionCode cs; postalCode := postalCode cs |}, poi_names)
  else if mem "country" tys then
    name ← comp_key "short_name" (short_name comp);
    Ok ({| locality := locality cs; administrativeArea := administrativeArea cs;
           regionCode := Some name; postalCode := postalCode cs |}, poi_names)
  else if mem "postal_code" tys then
    name ← comp_key "long_name" (long_name comp);
    Ok ({| locality := locality cs; administrativeArea := administrativeArea cs;
           regionCode := regionCode cs; postalCode := Some name |}, poi_names)
  else Ok (cs, poi_names).

Fixpoint file_components (st : components * list string) (comps : list component)
    : res (components * list string) :=
  match comps with
  | [] => Ok st
  | comp :: rest => st' ← file_component st comp; file_components st' rest
  end.

(** Lines 52-62: the POI names, the original input in front unless it is
    one of them, the formatted address last unless already there *)
Definition build_address_lines (poi_names : list string)
    (original_input formatted : string) : list string :=
  let address_lines := poi_names in
  let address_lines :=
    if mem original_input address_lines then address_lines
    else original_input :: address_lines in
  if mem formatted address_lines then address_lines
  else address_lines ++ [formatted].

Definition build_validation_request (geocode_result : geocode_result)
    (original_input : string) : res validation_request :=
  let comps := default [] (address_components geocode_result) in
  let formatted := default "" (formatted_address geocode_result) in
  '(cs, poi_names) ←
    file_components
      ({| locality := None; administrativeArea := None;
          regionCode := None; postalCode := None |}, []) comps;
  Ok {| req_locality := locality cs;
        req_administrativeArea := administrativeArea cs;
        req_regionCode := default "US" (regionCode cs);
        req_postalCode := postalCode cs;
        addressLines := build_address_lines poi_names original_input formatted |}.

(* ===================================================================== *)
(** ** The batch driver                                                   *)
(* ===================================================================== *)

Section Driver.
Context (rt : runtime).

(** The network is a state [World] that each call reads and advances.
    [geocode_call] is the GET of [geocode_address] up to [data['results']]
    (or whatever it raised); [validate_call] is the POST of
    [validate_address_google]: the decoded body, or the message of the
    [RequestException] it raised. *)
Context {World : Type}.
Context (geocode_call : string -> string -> World -> res (list geocode_result) * World).
Context (validate_call : validation_request -> string -> World -> (pyval + string) * World).

Definition io (A : Type) : Type := World -> res A * World.

Definition io_ret {A} (a : A) : io A := fun w => (Ok a, w).
Definition io_bind {A B} (m : io A) (f : A -> io B) : io B := fun w =>
  match m w with
  | (Ok a, w') => f a w'
  | (Raise e, w') => (Raise e, w')
  end.
Definition lift {A} (r : res A) : io A := fun w => (r, w).

Notation "'let*' x := m 'in' k" := (io_bind m (fun x => k))
  (at level 10, x name, m at level 99, k at level 200, only parsing).

Definition geocode_address (address_text api_key : string) : io geocode_result :=
  let* results := geocode_call address_text api_key in
  match results with
  | [] => lift (Raise (ValueError "No results found for address"))
  | result :: _ => io_ret result
  end.

(** [enable_cass] only enters the local [payload], which is never sent;
    [region_code] is not used at all: the POST carries
    [validation_request]. *)
Definition validate_address_google (address api_key : string)
    (enable_cass : bool) (region_code : string) : io pyval :=
  let* geocode_result := geocode_address address api_key in
  let* validation_request := lift (build_validation_request geocode_result address) in
  fun w =>
    match validate_call validation_request api_key w with
    | (inl body, w') => (Ok body, w')
    | (inr message, w') => (Ok (PDict {["error" := PStr message]}), w')
    end.

(** The keyword defaults of [parse_validation_result]'s signature *)
Definition default_region_code : string := "US".
Definition default_enable_usps_cass : bool := true.

Record loop_state : Type := {
  results : list (gmap string pyval);
  invalid_count : nat
}.

(** One round of the loop over the rows (lines 249-272); the progress
    widgets and the pause are left out *)
Definition process_row (address_column api_key : string) (enable_cass : bool)
    (st : loop_state) (row : gmap string pyval) : io loop_state :=
  let* cell := lift (getitem_str (PDict row) address_column) in
  let address := py_str rt cell in
  let* validation_result :=
    validate_address_google address api_key enable_cass "US" in
  let* parsed_result :=
    lift (parse_validation_result rt validation_result address
            default_region_code default_enable_usps_cass) in
  let result_row := parsed_result ∪ row in
  let* is_valid := lift (getitem_str (PDict parsed_result) "is_valid") in
  io_ret {| results := results st ++ [result_row];
            invalid_count :=
              if truthy is_valid then invalid_count st
              else S (invalid_count st) |}.

Fixpoint process_rows (address_column api_key : string) (enable_cass : bool)
    (st : loop_state) (df : list (gmap string pyval)) : io loop_state :=
  match df with
  | [] => io_ret st
  | row :: rest =>
      let* st' := process_row address_column api_key enable_cass st row in
      process_rows address_column api_key enable_cass st' rest
  end.

Definition process_addresses (df : list (gmap string pyval))
    (address_column api_key : string) (enable_cass : bool)
    : io (list (gmap string pyval)) :=
  let* st :=
    process_rows address_column api_key enable_cass
      {| results := []; invalid_count := 0 |} df in
  io_ret (results st).

End Driver.

(* ===================================================================== *)
(** ** Reading a response                                                 *)
(* ===================================================================== *)

(** The value found by following [ks] from [v] through nested dicts;
    [None] as soon as a key is missing or a step is not a dict. *)
Fixpoint path (v : pyval) (ks : list string) : option pyval :=
  match ks with
  | [] => Some v
  | k :: rest =>
      match v with
      | PDict d =>
          match d !! k with
          | Some x => path x rest
          | None => None
          end
      | _ => None
      end
  end.

(** [result.<sect>.<key>] of a response *)
Definition field (result : pyval) (sect key : string) : option pyval :=
  path result ["result"; sect; key].

(** [a and b] and [not a] on values already computed *)
Definition pand (a b : pyval) : pyval := if truthy a then b else a.
Definition pnot (a : pyval) : pyval := PBool (negb (truthy a)).

(** The description of a DPV code: its entry in the table, else the
    unknown-code text *)
Definition describe (code : pyval) : string :=
  match code with
  | PStr c => default unknown_dpv (dpv_mapping !! c)
  | _ => unknown_dpv
  end.

Section Reading.
Context (result : pyval).

Definition granularity_of : pyval :=
  default (PStr "UNKNOWN") (field result "verdict" "validationGranularity").

Definition inferred_of : bool :=
  truthy (default (PBool false) (field result "verdict" "hasInferredComponents")).

Definition note_applies : bool :=
  inferred_of && in_str_list granularity_of ["SUB_PREMISE"; "PREMISE"; "STREET"].

Definition status_of : string :=
  let base := fst (granularity_status granularity_of) in
  if note_applies then base +:+ inferred_note else base.

Definition dpv_code_of : pyval :=
  default (PStr "N/A") (field result "uspsData" "dpvConfirmation").

Definition dpv_is_Y : bool :=
  eq_str (default PNone (field result "uspsData" "dpvConfirmation")) "Y".

Definition description_of : string := describe dpv_code_of.

Definition verdict_or_none (key : string) : pyval :=
  default PNone (field result "verdict" key).

Definition confirmed_base : pyval :=
  pand (PBool (in_str_list (verdict_or_none "validationGranularity")
                 ["PREMISE"; "SUB_PREMISE"]))
 (pand (verdict_or_none "addressComplete")
 (pand (pnot (verdict_or_none "hasInferredComponents"))
 (pand (pnot (verdict_or_none "hasReplacedComponents"))
 (pand (pnot (verdict_or_none "unconfirmedComponentTypes"))
 (pand (pnot (verdict_or_none "missingComponentTypes"))
       (pnot (verdict_or_none "unresolvedTokens"))))))).

Definition confirmed_of (region_code : string) (enable_usps_cass : bool) : pyval :=
  if String.eqb region_code "US" && enable_usps_cass
  then pand confirmed_base (PBool dpv_is_Y)
  else confirmed_base.

Definition usps_flag (key : string) : pyval :=
  default (PBool false) (field result "uspsData" key).

(** The row of the classification path, written over the fields of the
    response *)
Definition classify (original_address region_code : string)
    (enable_usps_cass : bool) : gmap string pyval :=
  classified_row original_address
    (default (PStr original_address) (field result "address" "formattedAddress"))
    (snd (granularity_status granularity_of))
    status_of
    (if String.eqb region_code "US"
     then default (PBool false) (field result "metadata" "poBox")
     else PBool false)
    (if String.eqb region_code "US" then PBool dpv_is_Y else PBool false)
    (confirmed_of region_code enable_usps_cass)
    (usps_flag "dpvVacant") (usps_flag "dpvNoStat")
    (usps_flag "dpvCmra") (usps_flag "undeliverable")
    description_of.

End Reading.

(* ===================================================================== *)
(** ** The vocabulary of the statements                                   *)
(* ===================================================================== *)

(** Rows of the two escape hatches: the API-error and the parse-error row *)
Definition escaped (original_address : string) (row : gmap string pyval) : Prop :=
  exists status, row = error_row original_address status.

(** The boolean flags of a result *)
Definition flag_keys : list string :=
  ["is_po_box"; "is_dpv_confirmed"; "is_confirmed"; "is_vacant";
   "is_no_stat"; "is_cmra"; "is_undeliverable"].

(** A flag as the consumer of a row reads it: an unset flag reads false *)
Definition flag (row : gmap string pyval) (key : string) : bool :=
  match row !! key with
  | Some v => truthy v
  | None => false
  end.

(** The inputs on which the code before the [try] raises nothing: a dict,
    or a list or string in which ["error" in result] is false *)
Definition accepts (result : pyval) : bool :=
  match result with
  | PDict _ => true
  | PList l => negb (existsb (fun x => eq_str x "error") l)
  | PStr s => negb (is_substring "error" s)
  | _ => false
  end.

(** [s.endswith(suffix)] *)
Definition endswith (s suffix : string) : bool :=
  let n := String.length s in
  let m := String.length suffix in
  Nat.leb m n && String.eqb (substring (n - m) m s) suffix.

(** The table of the specification, row by row *)
Definition status_table : gmap string (string * bool) :=
  list_to_map
    [ ("SUB_PREMISE", ("Highly Mailable Address (Validated to sub-unit)", true));
      ("PREMISE", ("Standard Mailable Address (Validated to building)", true));
      ("STREET", ("Partial Address (Street-level only, may not be reliably mailable)", true));
      ("LOCALITY", ("Non-Mailable Address (Only city-level validated)", false));
      ("REGION", ("Non-Mailable Address (Only region/state validated)", false));
      ("COUNTRY", ("Non-Mailable Address (Only country validated)", false));
      ("OTHER", ("Non-Mailable Address (Unknown or unvalidated)", false)) ].

Definition unknown_granularity : string * bool :=
  ("Non-Mailable Address (Unknown validation granularity)", false).

(** The row of a granularity: its entry, else the unknown row *)
Definition table_row (g : pyval) : string * bool :=
  match g with
  | PStr k => default unknown_granularity (status_table !! k)
  | _ => unknown_granularity
  end.

(** A field that "is true": present and truthy *)
Definition is_true (o : option pyval) : bool := truthy (default PNone o).

(** A field that "is empty": missing, or falsy as the empty list is *)
Definition is_empty (o : option pyval) : bool := negb (truthy (default PNone o)).

(** The seven conditions on the verdict *)
Definition confirm_conditions (result : pyval) : bool :=
  in_str_list (default PNone (field result "verdict" "validationGranularity"))
    ["PREMISE"; "SUB_PREMISE"]
  && is_true (field result "verdict" "addressComplete")
  && negb (is_true (field result "verdict" "hasInferredComponents"))
  && negb (is_true (field result "verdict" "hasReplacedComponents"))
  && is_empty (field result "verdict" "unconfirmedComponentTypes")
  && is_empty (field result "verdict" "missingComponentTypes")
  && is_empty (field result "verdict" "unresolvedTokens").

(** The additional condition under CASS for the US *)
Definition cass_condition (result : pyval) (region_code : string)
    (enable_usps_cass : bool) : bool :=
  if String.eqb region_code "US" && enable_usps_cass
  then eq_str (default PNone (field result "uspsData" "dpvConfirmation")) "Y"
  else true.

(** A component filed as a point of interest *)
Definition is_poi (comp : component) : bool :=
  match types comp with
  | Some tys => existsb (fun t => mem t tys) poi_tags
  | None => false
  end.

(** The names of the point-of-interest components, in encounter order *)
Definition poi_long_names (comps : list component) : list string :=
  omap (fun comp => if is_poi comp then long_name comp else None) comps.

(** Deduplication that keeps the first occurrence of every entry *)
Fixpoint nub (l : list string) : list string :=
  match l with
  | [] => []
  | x :: rest => x :: filter (fun y => y <> x) (nub rest)
  end.

(** A section that is missing, or a dict *)
Definition dict_or_missing (o : option pyval) : bool :=
  match o with
  | None => true
  | Some (PDict _) => true
  | Some _ => false
  end.

(** Values [hash] accepts *)
Definition hashable (v : pyval) : bool :=
  match v with
  | PList _ | PDict _ => false
  | _ => true
  end.

(** The responses on which nothing is raised: no ["error"] key, every
    section that is read is a dict or missing, and the values that get
    hashed are hashable *)
Definition well_formed (result : pyval) (region_code : string) : bool :=
  match result with PDict d => negb (bool_decide (is_Some (d !! "error"))) | _ => false end
  && dict_or_missing (path result ["result"])
  && dict_or_missing (path result ["result"; "verdict"])
  && dict_or_missing (path result ["result"; "address"])
  && dict_or_missing (path result ["result"; "geocode"])
  && dict_or_missing (path result ["result"; "geocode"; "location"])
  && dict_or_missing (path result ["result"; "uspsData"])
  && (negb (String.eqb region_code "US")
      || dict_or_missing (path result ["result"; "metadata"]))
  && (negb (inferred_of result) || hashable (granularity_of result))
  && hashable (dpv_code_of result).

(** How an output row of the driver comes from an input row: the address
    is the text of the chosen column, some response was obtained for it,
    and the response was classified for region ["US"] with CASS enabled. *)
Definition classified_with_defaults (rt : runtime) {World : Type}
    (geocode_call : string -> string -> World -> res (list geocode_result) * World)
    (validate_call : validation_request -> string -> World -> (pyval + string) * World)
    (address_column api_key : string) (row out : gmap string pyval) : Prop :=
  exists cell response parsed,
    row !! address_column = Some cell /\
    (exists enable_cass w w',
       validate_address_google geocode_call validate_call
         (py_str rt cell) api_key enable_cass "US" w = (Ok response, w')) /\
    parse_validation_result rt response (py_str rt cell) "US" true = Ok parsed /\
    out = parsed ∪ row.

(* ===================================================================== *)
(** ** Sample inputs                                                      *)
(* ===================================================================== *)

(** A runtime to run the model on concrete inputs: the exception texts of
    CPython 3.12, and [repr] for [None], booleans and integers (the other
    kinds print as their type name here).  Every theorem below holds for
    all runtimes. *)
Definition cpython : runtime := {|
  repr_nonstr v :=
    match v with
    | PNone => "None"
    | PBool true => "True"
    | PBool false => "False"
    | PInt z => pretty z
    | _ => type_name v
    end;
  exn_str e :=
    match e with
    | AttributeError ty attr =>
        "'" +:+ ty +:+ "' object has no attribute '" +:+ attr +:+ "'"
    | NotContainer ty => "argument of type '" +:+ ty +:+ "' is not iterable"
    | BadIndex "list" => "list indices must be integers or slices, not str"
    | BadIndex "str" => "string indices must be integers, not 'str'"
    | BadIndex ty => "'" +:+ ty +:+ "' object is not subscriptable"
    | Unhashable ty => "unhashable type: '" +:+ ty +:+ "'"
    | KeyError k => "'" +:+ k +:+ "'"
    | ValueError msg => msg
    | HTTPError msg => msg
    end
|}.

(** A JSON object literal *)
Definition obj (l : list (string * pyval)) : pyval := PDict (list_to_map l).

(** A payload whose [verdict] is a JSON array: [verdict.get] raises
    [AttributeError] inside the [try]. *)
Definition malformed_verdict : pyval :=
  obj [("result", obj [("verdict", PList [])])].

(** A well-formed response, validated to the building *)
Definition premise_response : pyval :=
  obj [("result",
        obj [("verdict",
              obj [("validationGranularity", PStr "PREMISE");
                   ("addressComplete", PBool true)]);
             ("address",
              obj [("formattedAddress", PStr "10 Main Street, Springfield, IL 62701, USA")]);
             ("uspsData", obj [("dpvConfirmation", PStr "Y")]);
             ("metadata", obj [("poBox", PBool false)])])].

(** A response with a formatted address whose [uspsData] is [null]:
    [usps_data.get] raises inside the [try]. *)
Definition null_usps_response : pyval :=
  obj [("result",
        obj [("address",
              obj [("formattedAddress", PStr "10 Main Street, Springfield, IL 62701, USA")]);
             ("uspsData", PNone)])].

(** A PREMISE response with inferred components *)
Definition inferred_premise_response : pyval :=
  obj [("result",
        obj [("verdict",
              obj [("validationGranularity", PStr "PREMISE");
                   ("hasInferredComponents", PBool true)])])].

(** A LOCALITY response with inferred components *)
Definition inferred_locality_response : pyval :=
  obj [("result",
        obj [("verdict",
              obj [("validationGranularity", PStr "LOCALITY");
                   ("hasInferredComponents", PBool true)])])].

(** A response from which a US reading would set both flags *)
Definition po_box_response : pyval :=
  obj [("result",
        obj [("verdict", obj [("validationGranularity", PStr "PREMISE")]);
             ("uspsData", obj [("dpvConfirmation", PStr "Y")]);
             ("metadata", obj [("poBox", PBool true)])])].

(** A complete PREMISE verdict whose DPV code is ["N"] *)
Definition unconfirmed_dpv_response : pyval :=
  obj [("result",
        obj [("verdict",
              obj [("validationGranularity", PStr "PREMISE");
                   ("addressComplete", PBool true)]);
             ("uspsData", obj [("dpvConfirmation", PStr "N")])])].

(** The geocoder result for "Harvard": one component tagged as a
    university, and the formatted address *)
Definition harvard_geocode : geocode_result := {|
  address_components :=
    Some [ {| types := Some ["university"; "establishment"; "point_of_interest"];
              long_name := Some "Harvard University";
              short_name := Some "Harvard University" |} ];
  formatted_address := Some "Cambridge, MA 02138"
|}.

(** A network that answers every address with the Harvard geocode and a
    PREMISE verdict whose DPV code is ["N"]; the state counts the calls. *)
Definition canned_geocode (address api_key : string) (calls : nat)
    : res (list geocode_result) * nat :=
  (Ok [harvard_geocode], S calls).

Definition canned_validate (request : validation_request) (api_key : string)
    (calls : nat) : (pyval + string) * nat :=
  (inl unconfirmed_dpv_response, S calls).

Definition one_row_sheet : list (gmap string pyval) :=
  [ {["address" := PStr "Harvard"]} ].

(* ===================================================================== *)
(** ** Further vocabulary: keys of a row, filing of components            *)
(* ===================================================================== *)

(** The keys of the two kinds of row *)
Definition error_keys : gset string :=
  list_to_set ["original_address"; "validated_address"; "is_valid";
               "validation_status"; "lat"; "lng"; "usps_data"].

Definition classified_keys : gset string :=
  list_to_set ["original_address"; "validated_address"; "is_valid";
               "validation_status"; "is_po_box"; "is_dpv_confirmed";
               "is_confirmed"; "is_vacant"; "is_no_stat"; "is_cmra";
               "is_undeliverable"; "dpv_confirmation_description"].

(** The three keys that depend on [region_code] and [enable_usps_cass] *)
Definition gated_keys : list string :=
  ["is_po_box"; "is_dpv_confirmed"; "is_confirmed"].

(** What the code before the [try] raises on an input it does not accept *)
Definition rejection (result : pyval) : exn :=
  match result with
  | PList _ | PStr _ | PDict _ => BadIndex (type_name result)
  | _ => NotContainer (type_name result)
  end.

(** The category the if/elif chain of the request builder files a
    component under: the first test that succeeds *)
Inductive slot : Type := Poi | Locality | AdminArea | Country | PostalCode.

Definition slot_eqb (a b : slot) : bool :=
  match a, b with
  | Poi, Poi | Locality, Locality | AdminArea, AdminArea
  | Country, Country | PostalCode, PostalCode => true
  | _, _ => false
  end.

Definition filed_as (comp : component) : option slot :=
  match types comp with
  | None => None
  | Some tys =>
      if existsb (fun t => mem t tys) poi_tags then Some Poi
      else if mem "locality" tys then Some Locality
      else if mem "administrative_area_level_1" tys then Some AdminArea
      else if mem "country" tys then Some Country
      else if mem "postal_code" tys then Some PostalCode
      else None
  end.

(** The name key a category reads, and its value in a component *)
Definition name_key (s : slot) : string :=
  match s with
  | Poi | Locality | PostalCode => "long_name"
  | AdminArea | Country => "short_name"
  end.

Definition name_of (s : slot) (comp : component) : option string :=
  match s with
  | Poi | Locality | PostalCode => long_name comp
  | AdminArea | Country => short_name comp
  end.

(** The key whose absence makes the loop raise on a component *)
Definition missing_key (comp : component) : option string :=
  match types comp with
  | None => Some "types"
  | Some _ =>
      match filed_as comp with
      | Some s =>
          match name_of s comp with
          | Some _ => None
          | None => Some (name_key s)
          end
      | None => None
      end
  end.

(** The names filed under a category, in encounter order *)
Definition filed_names (s : slot) (comps : list component) : list string :=
  omap (fun comp =>
          match filed_as comp with
          | Some s' => if slot_eqb s s' then name_of s comp else None
          | None => None
          end) comps.

(** A row the loop of the driver counts as invalid *)
Definition counts_invalid (row : gmap string pyval) : bool :=
  match row !! "is_valid" with
  | Some (PBool false) => true
  | _ => false
  end.

(** A geocoder that finds nothing *)
Definition empty_geocode (address api_key : string) (calls : nat)
    : res (list geocode_result) * nat :=
  (Ok [], S calls).

(** A validation service that is unreachable *)
Definition failing_validate (request : validation_request) (api_key : string)
    (calls : nat) : (pyval + string) * nat :=
  (inr "503 Server Error", S calls).

(** A sheet with a column named like a result key *)
Definition clashing_sheet : list (gmap string pyval) :=
  [ <["address" := PStr "Harvard"]> (<["is_valid" := PStr "yes"]>
      {["customer" := PInt 7]}) ].

(** A geocode result with a city, a state, two countries and a ZIP code,
    and a component that is both an establishment and a locality *)
Definition springfield_geocode : geocode_result := {|
  address_components :=
    Some [ {| types := Some ["establishment"; "locality"];
              long_name := Some "City Hall"; short_name := None |};
           {| types := Some ["locality"; "political"];
              long_name := Some "Springfield"; short_name := None |};
           {| types := Some ["administrative_area_level_1"];
              long_name := None; short_name := Some "IL" |};
           {| types := Some ["country"];
              long_name := None; short_name := Some "CA" |};
           {| types := Some ["country"];
              long_name := None; short_name := Some "US" |};
           {| types := Some ["postal_code"];
              long_name := Some "62701"; short_name := None |};
           {| types := Some ["route"]; long_name := None; short_name := None |} ];
  formatted_address := None
|}.

(** A geocode result whose country component has no [short_name] *)
Definition nameless_country_geocode : geocode_result := {|
  address_components :=
    Some [ {| types := Some ["locality"];
              long_name := Some "Springfield"; short_name := None |};
           {| types := Some ["country"];
              long_name := Some "United States"; short_name := None |};
           {| types := None; long_name := None; short_name := None |} ];
  formatted_address := Some "Springfield, USA"
|}.

(** A response with vacancy data and a geocode location *)
Definition vacant_response : pyval :=
  obj [("result",
        obj [("verdict",
              obj [("validationGranularity", PStr "PREMISE");
                   ("addressComplete", PBool true)]);
             ("geocode",
              obj [("location", obj [("lat", PInt 39); ("lng", PInt (-89))])]);
             ("uspsData",
              obj [("dpvConfirmation", PStr "Y"); ("dpvVacant", PBool true);
                   ("dpvCmra", PBool true)])])].

(** The first key, in component order, whose absence makes the loop raise *)
Definition first_missing (comps : list component) : option string :=
  head (omap missing_key comps).

(** The entry of the [components] dict a category writes *)
Definition slot_get (s : slot) (cs : components) : option string :=
  match s with
  | Poi => None
  | Locality => locality cs
  | AdminArea => administrativeArea cs
  | Country => regionCode cs
  | PostalCode => postalCode cs
  end.

(** What a component contributes to a category *)
Definition contribution (s : slot) (comp : component) : option string :=
  match filed_as comp with
  | Some s' => if slot_eqb s s' then name_of s comp else None
  | None => None
  end.

(** The number of rows the loop counts as invalid *)
Definition count_invalid (rows : list (gmap string pyval)) : nat :=
  length (List.filter counts_invalid rows).

(** The state the loop of the driver starts from *)
Definition initial_state : loop_state := {| results := []; invalid_count := 0 |}.


(** What every output row of the driver carries *)
Definition well_labelled (rt : runtime) (address_column : string)
    (row out : gmap string pyval) : Prop :=
  exists cell valid status,
    row !! address_column = Some cell /\
    out !! "original_address" = Some (PStr (py_str rt cell)) /\
    out !! "is_valid" = Some (PBool valid) /\
    out !! "validation_status" = Some (PStr status) /\ status <> "".

(** A confirmed output row is valid and DPV confirmed *)
Definition confirmed_is_backed (out : gmap string pyval) : Prop :=
  out !! "is_confirmed" = Some (PBool true) ->
  out !! "is_valid" = Some (PBool true) /\
  out !! "is_dpv_confirmed" = Some (PBool true).

(** A geocoder that answers the first call only *)
Definition fading_geocode (address api_key : string) (calls : nat)
    : res (list geocode_result) * nat :=
  (if Nat.eqb calls 0 then Ok [harvard_geocode] else Ok [], S calls).

(** A validation service that confirms every address *)
Definition confirming_validate (request : validation_request) (api_key : string)
    (calls : nat) : (pyval + string) * nat :=
  (inl premise_response, S calls).

(** A row without the address column *)
Definition columnless_row : gmap string pyval := {["customer" := PInt 8]}.

(* ===================================================================== *)
(** ** Basic facts about the Python operations                            *)
(* ===================================================================== *)

Lemma bind_Ok {A B} (m : res A) (f : A -> res B) (b : B) :
  m ≫= f = Ok b -> exists a, m = Ok a /\ f a = Ok b.
Proof. destruct m as [a|e]; simpl; [eauto | discriminate]. Qed.

Lemma bind_Ok_l {A B} (a : A) (f : A -> res B) : Ok a ≫= f = f a.
Proof. reflexivity. Qed.

Lemma get_dict d k dflt : get (PDict d) k dflt = Ok (default dflt (d !! k)).
Proof. reflexivity. Qed.

Lemma get_Ok v k dflt x :
  get v k dflt = Ok x -> exists d, v = PDict d /\ x = default dflt (d !! k).
Proof. destruct v; simpl; intros H; try discriminate. injection H as <-. eauto. Qed.

Lemma and_Ok a b : and_ (Ok a) (Ok b) = Ok (pand a b).
Proof. unfold and_, pand. simpl. destruct (truthy a); reflexivity. Qed.

Lemma not_Ok a : not_ (Ok a) = Ok (pnot a).
Proof. reflexivity. Qed.

Lemma in_str_set_Ok v lits b : in_str_set v lits = Ok b -> b = in_str_list v lits.
Proof.
  unfold in_str_set. intros H. apply bind_Ok in H as (u & _ & H). congruence.
Qed.

(** A section that [.get] could be called on is the dict at that path, or
    the empty default, so its keys are the fields of the response. *)
Lemma section_lookup result vr sect d key :
  get result "result" (PDict ∅) = Ok vr ->
  get vr sect (PDict ∅) = Ok (PDict d) ->
  d !! key = field result sect key.
Proof.
  intros H1 H2.
  apply get_Ok in H1 as (d0 & -> & ->).
  apply get_Ok in H2 as (d1 & Hvr & Hd).
  unfold field. simpl.
  destruct (d0 !! "result") as [x|]; simpl in *.
  - subst x. destruct (d1 !! sect) as [y|]; simpl in *.
    + subst y. simpl. destruct (d !! key); reflexivity.
    + injection Hd as ->. apply lookup_empty.
  - injection Hvr as <-. rewrite lookup_empty in Hd. simpl in Hd.
    injection Hd as ->. apply lookup_empty.
Qed.

(** The [try] block, when nothing is raised, returns [classify]. *)
Lemma parse_body_Ok result orig region cass row :
  parse_body result orig region cass = Ok row ->
  row = classify result orig region cass.
Proof.
  unfold parse_body. intros H.
  apply bind_Ok in H as (vr & Hvr & H).
  apply bind_Ok in H as (verdict & Hverdict & H).
  apply bind_Ok in H as (address_obj & Haddr & H).
  apply bind_Ok in H as (g & Hg & H).
  apply bind_Ok in H as (ac & _ & H).
  apply bind_Ok in H as (hi & Hhi & H).
  destruct (granularity_status g) as [base valid] eqn:Hgs.
  apply bind_Ok in H as (add_note & Hnote & H).
  apply bind_Ok in H as (fa & Hfa & H).
  apply bind_Ok in H as (geocode & _ & H).
  apply bind_Ok in H as (location & _ & H).
  apply bind_Ok in H as (lat & _ & H).
  apply bind_Ok in H as (lng & _ & H).
  apply bind_Ok in H as (usps & Husps & H).
  apply bind_Ok in H as (metadata & Hmeta & H).
  apply bind_Ok in H as (pb & Hpb & H).
  apply bind_Ok in H as (dc & Hdc & H).
  apply bind_Ok in H as (code & Hcode & H).
  apply bind_Ok in H as (descr & Hdescr & H).
  apply bind_Ok in H as (ic0 & Hic0 & H).
  apply bind_Ok in H as (ic & Hic & H).
  apply bind_Ok in H as (vac & Hvac & H).
  apply bind_Ok in H as (nostat & Hnostat & H).
  apply bind_Ok in H as (cmra & Hcmra & H).
  apply bind_Ok in H as (und & Hund & H).
  injection H as <-.
  (* the three sections that were read are dicts *)
  destruct (get_Ok _ _ _ _ Hg) as (dv & -> & _).
  destruct (get_Ok _ _ _ _ Hfa) as (da & -> & _).
  destruct (get_Ok _ _ _ _ Hcode) as (du & -> & _).
  pose proof (fun key => section_lookup _ _ _ _ key Hvr Hverdict) as Fv.
  pose proof (fun key => section_lookup _ _ _ _ key Hvr Haddr) as Fa.
  pose proof (fun key => section_lookup _ _ _ _ key Hvr Husps) as Fu.
  rewrite get_dict in Hg, Hhi, Hfa, Hcode, Hvac, Hnostat, Hcmra, Hund.
  injection Hg as <-. injection Hhi as <-. injection Hfa as <-.
  injection Hcode as <-. injection Hvac as <-. injection Hnostat as <-.
  injection Hcmra as <-. injection Hund as <-.
  rewrite !get_dict, bind_Ok_l, !not_Ok, !and_Ok in Hic0. injection Hic0 as <-.
  rewrite ?Fv, ?Fu, ?Fa.
  repeat rewrite Fv in Hic. repeat rewrite Fu in Hic.
  repeat rewrite Fv in Hnote. repeat rewrite Fv in Hgs.
  repeat rewrite Fu in Hdescr.
  (* the note *)
  assert (Hn : add_note = note_applies result).
  { unfold note_applies, inferred_of, granularity_of.
    destruct (truthy (default (PBool false) (field result "verdict" "hasInferredComponents"))).
    - apply in_str_set_Ok in Hnote. rewrite Hnote. reflexivity.
    - injection Hnote as <-. reflexivity. }
  (* the description *)
  assert (Hd : descr = description_of result).
  { unfold _map_dpv_confirmation in Hdescr.
    apply bind_Ok in Hdescr as (u & _ & Hdescr). injection Hdescr as <-.
    reflexivity. }
  (* the region-gated flags *)
  assert (Hp : pb = if String.eqb region "US"
                    then default (PBool false) (field result "metadata" "poBox")
                    else PBool false).
  { destruct (String.eqb region "US").
    - destruct (get_Ok _ _ _ _ Hpb) as (dm & -> & ->).
      rewrite (section_lookup _ _ _ _ "poBox" Hvr Hmeta). reflexivity.
    - congruence. }
  assert (Hc : dc = if String.eqb region "US" then PBool (dpv_is_Y result) else PBool false).
  { destruct (String.eqb region "US").
    - rewrite get_dict, bind_Ok_l in Hdc. injection Hdc as <-.
      unfold dpv_is_Y. rewrite Fu. reflexivity.
    - congruence. }
  assert (Hi : ic = confirmed_of result region cass).
  { unfold confirmed_of.
    destruct (String.eqb region "US" && cass).
    - rewrite get_dict, bind_Ok_l, and_Ok in Hic.
      injection Hic as <-. unfold dpv_is_Y. rewrite Fu. reflexivity.
    - injection Hic as <-. reflexivity. }
  subst add_note descr pb dc ic.
  unfold classify, status_of, granularity_of, usps_flag.
  rewrite Hgs. reflexivity.
Qed.

(* ===================================================================== *)
(** ** The three ways out of the classifier                               *)
(* ===================================================================== *)

Lemma contains_str_dict d k :
  contains_str (PDict d) k = Ok (bool_decide (is_Some (d !! k))).
Proof. reflexivity. Qed.

Lemma accepts_contains result :
  accepts result = true ->
  (exists d, result = PDict d) \/ contains_str result "error" = Ok false.
Proof.
  destruct result; simpl; try discriminate; intros H.
  - right. f_equal. apply negb_true_iff. exact H.
  - right. f_equal. apply negb_true_iff. exact H.
  - left. eauto.
Qed.

(** Every returned row is the API-error row, the parse-error row or the
    classification of the response. *)
Lemma parse_cases rt result orig region cass row :
  parse_validation_result rt result orig region cass = Ok row ->
  (exists e, getitem_str result "error" = Ok e /\
             row = error_row orig ("API Error: " +:+ py_str rt e))
  \/ (exists e, parse_body result orig region cass = Raise e /\
                row = error_row orig ("Parse Error: " +:+ exn_str rt e))
  \/ (parse_body result orig region cass = Ok row /\
      row = classify result orig region cass).
Proof.
  unfold parse_validation_result. intros H.
  apply bind_Ok in H as ([|] & _ & H).
  - apply bind_Ok in H as (e & He & H). injection H as <-. left. eauto.
  - destruct (parse_body result orig region cass) as [r|e] eqn:Hb.
    + injection H as <-. right. right. split; [reflexivity|].
      apply parse_body_Ok in Hb. exact Hb.
    + injection H as <-. right. left. eauto.
Qed.

Lemma parse_cases_escaped rt result orig region cass row :
  parse_validation_result rt result orig region cass = Ok row ->
  escaped orig row \/ row = classify result orig region cass.
Proof.
  intros H. apply parse_cases in H as [(e & _ & ->) | [(e & _ & ->) | [_ ->]]].
  - left. eexists. reflexivity.
  - left. eexists. reflexivity.
  - right. reflexivity.
Qed.

Lemma get_top d :
  dict_or_missing (path (PDict d) ["result"]) = true ->
  exists d1, get (PDict d) "result" (PDict ∅) = Ok (PDict d1).
Proof.
  simpl. destruct (d !! "result") as [[]|]; simpl; try discriminate; eauto.
Qed.

Lemma get_section result d1 sect :
  get result "result" (PDict ∅) = Ok (PDict d1) ->
  dict_or_missing (path result ["result"; sect]) = true ->
  exists ds, get (PDict d1) sect (PDict ∅) = Ok (PDict ds).
Proof.
  intros H1. apply get_Ok in H1 as (d0 & -> & Hd1). simpl.
  destruct (d0 !! "result") as [x|]; simpl in Hd1.
  - subst x. destruct (d1 !! sect) as [[]|]; simpl; try discriminate; eauto.
  - injection Hd1 as ->. intros _. exists ∅. reflexivity.
Qed.

Lemma hash_check_hashable v : hashable v = true -> hash_check v = Ok tt.
Proof. destruct v; simpl; congruence. Qed.

(** On a well-formed response the [try] block returns [classify]. *)
Lemma parse_body_well_formed result orig region cass :
  well_formed result region = true ->
  parse_body result orig region cass = Ok (classify result orig region cass).
Proof.
  unfold well_formed. rewrite !andb_true_iff.
  intros (((((((((Hd & Hres) & Hv) & Ha) & Hg) & Hl) & Hu) & Hm) & Hn) & Hh).
  destruct result as [| | | | | |d]; try discriminate Hd. clear Hd.
  destruct (get_top _ Hres) as (d1 & Hvr).
  destruct (get_section _ _ _ Hvr Hv) as (dv & Hdv).
  destruct (get_section _ _ _ Hvr Ha) as (da & Hda).
  destruct (get_section _ _ _ Hvr Hg) as (dg & Hdg).
  destruct (get_section _ _ _ Hvr Hu) as (du & Hdu).
  pose proof (fun key => section_lookup _ _ _ _ key Hvr Hdv) as Fv.
  pose proof (fun key => section_lookup _ _ _ _ key Hvr Hda) as Fa.
  pose proof (fun key => section_lookup _ _ _ _ key Hvr Hdg) as Fg.
  pose proof (fun key => section_lookup _ _ _ _ key Hvr Hdu) as Fu.
  assert (Hnote :
    (if truthy (default (PBool false) (dv !! "hasInferredComponents"))
     then in_str_set (default (PStr "UNKNOWN") (dv !! "validationGranularity"))
            ["SUB_PREMISE"; "PREMISE"; "STREET"]
     else Ok false) = Ok (note_applies (PDict d))).
  { rewrite !Fv. unfold note_applies. fold (inferred_of (PDict d)).
    fold (granularity_of (PDict d)).
    destruct (inferred_of (PDict d)); [|reflexivity].
    unfold in_str_set. rewrite hash_check_hashable by exact Hn. reflexivity. }
  assert (Hloc : exists dl, get (PDict dg) "location" (PDict ∅) = Ok (PDict dl)).
  { rewrite get_dict, Fg. unfold field.
    destruct (path (PDict d) ["result"; "geocode"; "location"]) as [[]|];
      try discriminate Hl; simpl; eauto. }
  destruct Hloc as (dl & Hdl).
  assert (Hdescr : _map_dpv_confirmation (default (PStr "N/A") (du !! "dpvConfirmation"))
                   = Ok (description_of (PDict d))).
  { rewrite Fu. fold (dpv_code_of (PDict d)). unfold _map_dpv_confirmation.
    rewrite hash_check_hashable by exact Hh. reflexivity. }
  unfold parse_body.
  rewrite Hvr, bind_Ok_l, Hdv, bind_Ok_l, Hda, bind_Ok_l.
  rewrite !(get_dict dv), !bind_Ok_l.
  destruct (granularity_status _) as [base valid] eqn:Hgs.
  rewrite Hnote, bind_Ok_l.
  rewrite (get_dict da), bind_Ok_l, Hdg, bind_Ok_l, Hdl, bind_Ok_l.
  rewrite !(get_dict dl), !bind_Ok_l, Hdu, bind_Ok_l.
  destruct (String.eqb region "US") eqn:Hr.
  - destruct (get_section _ _ _ Hvr Hm) as (dm & Hdm).
    pose proof (fun key => section_lookup _ _ _ _ key Hvr Hdm) as Fm.
    rewrite Hdm, bind_Ok_l, !get_dict, !bind_Ok_l, Hdescr, bind_Ok_l.
    rewrite !not_Ok, !and_Ok, bind_Ok_l.
    destruct cass; simpl andb; rewrite ?and_Ok, !bind_Ok_l; f_equal;
      unfold classify, status_of, confirmed_of, confirmed_base, verdict_or_none,
        usps_flag, dpv_is_Y, granularity_of;
      rewrite Hr, <- !Fv, <- !Fu, <- !Fa, <- !Fm, Hgs; reflexivity.
  - rewrite !get_dict, !bind_Ok_l, Hdescr, bind_Ok_l.
    rewrite !not_Ok, !and_Ok. simpl andb. rewrite !bind_Ok_l. f_equal.
    unfold classify, status_of, confirmed_of, confirmed_base, verdict_or_none,
      usps_flag, dpv_is_Y, granularity_of.
    rewrite Hr, <- !Fv, <- !Fu, <- !Fa, Hgs. reflexivity.
Qed.

(** A well-formed response is classified: the classification path is not
    an empty case. *)
Lemma parse_well_formed rt result orig region cass :
  well_formed result region = true ->
  parse_validation_result rt result orig region cass
    = Ok (classify result orig region cass).
Proof.
  intros H. unfold parse_validation_result.
  rewrite (parse_body_well_formed _ _ _ _ H).
  unfold well_formed in H. rewrite !andb_true_iff in H.
  destruct H as (((((((((Hd & _) & _) & _) & _) & _) & _) & _) & _) & _).
  destruct result; try discriminate Hd.
  rewrite contains_str_dict, bind_Ok_l.
  apply negb_true_iff in Hd. rewrite Hd. reflexivity.
Qed.

Lemma section_is_dict result vr sect d :
  get result "result" (PDict ∅) = Ok vr ->
  get vr sect (PDict ∅) = Ok (PDict d) ->
  dict_or_missing (path result ["result"]) = true /\
  dict_or_missing (path result ["result"; sect]) = true.
Proof.
  intros H1 H2.
  apply get_Ok in H1 as (d0 & -> & ->).
  apply get_Ok in H2 as (d1 & Hvr & Hd). simpl.
  destruct (d0 !! "result") as [x|]; simpl in *; [|split; reflexivity].
  subst x. split; [reflexivity|].
  destruct (d1 !! sect) as [y|]; simpl in *; [|reflexivity].
  subst y. reflexivity.
Qed.

Lemma hash_check_Ok v u : hash_check v = Ok u -> hashable v = true.
Proof. destruct v; simpl; congruence. Qed.

(** Conversely, the [try] block returns only on well-formed responses. *)
Lemma parse_body_Ok_well_formed result orig region cass row :
  contains_str result "error" = Ok false ->
  parse_body result orig region cass = Ok row ->
  well_formed result region = true.
Proof.
  unfold parse_body. intros Hc H.
  apply bind_Ok in H as (vr & Hvr & H).
  apply bind_Ok in H as (verdict & Hverdict & H).
  apply bind_Ok in H as (address_obj & Haddr & H).
  apply bind_Ok in H as (g & Hg & H).
  apply bind_Ok in H as (ac & _ & H).
  apply bind_Ok in H as (hi & Hhi & H).
  destruct (granularity_status g) as [base valid].
  apply bind_Ok in H as (add_note & Hnote & H).
  apply bind_Ok in H as (fa & Hfa & H).
  apply bind_Ok in H as (geocode & Hgeo & H).
  apply bind_Ok in H as (location & Hloc & H).
  apply bind_Ok in H as (lat & Hlat & H).
  apply bind_Ok in H as (lng & _ & H).
  apply bind_Ok in H as (usps & Husps & H).
  apply bind_Ok in H as (metadata & Hmeta & H).
  apply bind_Ok in H as (pb & Hpb & H).
  apply bind_Ok in H as (dc & _ & H).
  apply bind_Ok in H as (code & Hcode & H).
  apply bind_Ok in H as (descr & Hdescr & _).
  destruct (get_Ok _ _ _ _ Hg) as (dv & -> & ->).
  destruct (get_Ok _ _ _ _ Hfa) as (da & -> & _).
  destruct (get_Ok _ _ _ _ Hloc) as (dg & -> & ->).
  destruct (get_Ok _ _ _ _ Hlat) as (dl & Hdl & _).
  destruct (get_Ok _ _ _ _ Hcode) as (du & -> & ->).
  destruct (get_Ok _ _ _ _ Hhi) as (dv' & Hdv' & ->). injection Hdv' as <-.
  destruct (section_is_dict _ _ _ _ Hvr Hverdict) as [Wres Wv].
  destruct (section_is_dict _ _ _ _ Hvr Haddr) as [_ Wa].
  destruct (section_is_dict _ _ _ _ Hvr Hgeo) as [_ Wg].
  destruct (section_is_dict _ _ _ _ Hvr Husps) as [_ Wu].
  pose proof (fun key => section_lookup _ _ _ _ key Hvr Hverdict) as Fv.
  pose proof (fun key => section_lookup _ _ _ _ key Hvr Hgeo) as Fg.
  pose proof (fun key => section_lookup _ _ _ _ key Hvr Husps) as Fu.
  unfold well_formed. rewrite !andb_true_iff. repeat split; try assumption.
  - destruct result; try discriminate Hvr. simpl in Hc.
    injection Hc as ->. reflexivity.
  - fold (field result "geocode" "location"). rewrite <- Fg.
    destruct (dg !! "location") as [y|]; simpl in *; [|reflexivity].
    subst y. reflexivity.
  - destruct (String.eqb region "US"); [|reflexivity]. simpl.
    destruct (get_Ok _ _ _ _ Hpb) as (dm & -> & _).
    apply (section_is_dict _ _ _ _ Hvr Hmeta).
  - unfold inferred_of, granularity_of. rewrite <- !Fv.
    destruct (truthy (default (PBool false) (dv !! "hasInferredComponents")));
      [|reflexivity]. simpl.
    unfold in_str_set in Hnote. apply bind_Ok in Hnote as (u & Hu & _).
    apply hash_check_Ok in Hu. exact Hu.
  - unfold dpv_code_of. rewrite <- Fu.
    unfold _map_dpv_confirmation in Hdescr.
    apply bind_Ok in Hdescr as (u & Hu & _). apply hash_check_Ok in Hu. exact Hu.
Qed.

(** A returned row is the classification exactly when the response is
    well-formed, and an API-error or parse-error row otherwise. *)
Lemma parse_dichotomy rt result orig region cass row :
  parse_validation_result rt result orig region cass = Ok row ->
  (well_formed result region = true /\ row = classify result orig region cass)
  \/ (well_formed result region = false /\ escaped orig row).
Proof.
  unfold parse_validation_result. intros H.
  apply bind_Ok in H as ([|] & Hc & H).
  - apply bind_Ok in H as (e & He & H). injection H as <-. right.
    split; [|eexists; reflexivity].
    destruct result; try discriminate He. simpl in Hc. injection Hc as Hc.
    unfold well_formed. rewrite Hc. reflexivity.
  - destruct (parse_body result orig region cass) as [r|e] eqn:Hb.
    + injection H as <-. left. split.
      * apply (parse_body_Ok_well_formed _ _ _ _ _ Hc Hb).
      * apply parse_body_Ok, Hb.
    + injection H as <-. right. split; [|eexists; reflexivity].
      destruct (well_formed result region) eqn:Hw; [|reflexivity].
      rewrite (parse_body_well_formed _ orig _ cass Hw) in Hb. discriminate Hb.
Qed.

Lemma error_row_flags orig status key :
  In key flag_keys -> error_row orig status !! key = None.
Proof.
  simpl. intros H.
  repeat (destruct H as [<- | H]; [reflexivity|]). destruct H.
Qed.

Lemma error_row_no_description orig status :
  error_row orig status !! "dpv_confirmation_description" = None.
Proof. reflexivity. Qed.

Lemma py_str_str rt s : py_str rt (PStr s) = s.
Proof. reflexivity. Qed.

(** On a JSON boolean truthiness is the boolean; a list is falsy exactly
    when it is empty; a missing key reads [None], which is falsy. *)
Lemma truthy_bool b : truthy (PBool b) = b.
Proof. reflexivity. Qed.

Lemma truthy_list l : truthy (PList l) = false <-> l = [].
Proof. destruct l; simpl; split; congruence. Qed.

(* ===================================================================== *)
(** ** The API-error path                                                 *)
(* ===================================================================== *)

(** C5. A dict with a top-level ["error"] key short-circuits: whatever
    else it holds, the row returned is the error row, with
    [is_valid = False], [validation_status] equal to ["API Error: "]
    followed by the error message, [validated_address] equal to the
    original address, and none of the boolean flags set. *)
Theorem api_error_short_circuit rt d e orig region cass :
  d !! "error" = Some e ->
  exists row,
    parse_validation_result rt (PDict d) orig region cass = Ok row /\
    row = error_row orig ("API Error: " +:+ py_str rt e) /\
    row !! "is_valid" = Some (PBool false) /\
    row !! "validation_status" = Some (PStr ("API Error: " +:+ py_str rt e)) /\
    row !! "validated_address" = Some (PStr orig) /\
    (forall key, In key flag_keys -> row !! key = None).
Proof.
  intros He. eexists. split; [|split; [reflexivity|]].
  - unfold parse_validation_result. rewrite contains_str_dict, bind_Ok_l.
    rewrite bool_decide_eq_true_2 by (rewrite He; eauto).
    simpl. rewrite He. reflexivity.
  - repeat split. apply error_row_flags.
Qed.

Lemma api_error_short_circuit_witness :
  ({["error" := PStr "503 Server Error"]} : gmap string pyval) !! "error"
    = Some (PStr "503 Server Error") /\
  exists row,
    parse_validation_result cpython (PDict {["error" := PStr "503 Server Error"]})
      "10 Main St" "US" true = Ok row /\
    row !! "validation_status" = Some (PStr "API Error: 503 Server Error") /\
    row !! "is_confirmed" = None.
Proof.
  split; [reflexivity|].
  destruct (api_error_short_circuit cpython {["error" := PStr "503 Server Error"]}
              (PStr "503 Server Error") "10 Main St" "US" true)
    as (row & Hrow & _ & _ & Hstatus & _ & Hflags); [reflexivity|].
  exists row. split; [exact Hrow|]. split; [exact Hstatus|].
  apply Hflags. simpl. tauto.
Defined.

(* ===================================================================== *)
(** ** Totality and the parse-error path                                  *)
(* ===================================================================== *)

(** Outside the accepted inputs the function raises: the membership test
    of line 120 or the subscript of line 125 fails before the [try]. *)
Lemma parse_raises_unaccepted rt result orig region cass :
  accepts result = false ->
  exists e, parse_validation_result rt result orig region cass = Raise e.
Proof.
  unfold parse_validation_result.
  destruct result; simpl; try discriminate; try (intros _; eauto; fail); intros H.
  - apply negb_false_iff in H. rewrite H. simpl. eauto.
  - apply negb_false_iff in H. rewrite H. simpl. eauto.
Qed.

(** C3, amended. On every dict, whatever its contents (and on every list
    or string that does not contain ["error"]), the function returns a
    row; and when the [try] block raises [e], that row is the error row
    with [is_valid = False], [validation_status] equal to
    ["Parse Error: "] followed by [str(e)], and [validated_address] equal
    to the original address. *)
Theorem parse_total_on_accepted rt result orig region cass :
  accepts result = true ->
  exists row,
    parse_validation_result rt result orig region cass = Ok row /\
    (forall e,
       contains_str result "error" = Ok false ->
       parse_body result orig region cass = Raise e ->
       row = error_row orig ("Parse Error: " +:+ exn_str rt e) /\
       row !! "is_valid" = Some (PBool false) /\
       row !! "validation_status" = Some (PStr ("Parse Error: " +:+ exn_str rt e)) /\
       row !! "validated_address" = Some (PStr orig)).
Proof.
  intros Hacc. unfold parse_validation_result.
  destruct (accepts_contains _ Hacc) as [(d & ->) | Hc].
  - rewrite contains_str_dict, bind_Ok_l.
    destruct (bool_decide (is_Some (d !! "error"))) eqn:Hd.
    + apply bool_decide_eq_true in Hd as (x & Hx). simpl. rewrite Hx. simpl.
      eexists. split; [reflexivity|]. intros e He. discriminate He.
    + destruct (parse_body (PDict d) orig region cass) as [r|e0] eqn:Hb.
      * eexists. split; [reflexivity|]. intros e _ He. discriminate He.
      * eexists. split; [reflexivity|]. intros e _ He. injection He as <-.
        repeat split.
  - rewrite Hc, bind_Ok_l.
    destruct (parse_body result orig region cass) as [r|e0] eqn:Hb.
    + eexists. split; [reflexivity|]. intros e _ He. discriminate He.
    + eexists. split; [reflexivity|]. intros e _ He. injection He as <-.
      repeat split.
Qed.

Lemma parse_total_on_accepted_witness :
  accepts malformed_verdict = true /\
  exists row,
    parse_validation_result cpython malformed_verdict "10 Main St" "US" true = Ok row /\
    row !! "validation_status"
      = Some (PStr "Parse Error: 'list' object has no attribute 'get'") /\
    row !! "is_valid" = Some (PBool false) /\
    row !! "validated_address" = Some (PStr "10 Main St").
Proof.
  split; [reflexivity|].
  destruct (parse_total_on_accepted cpython malformed_verdict "10 Main St" "US" true)
    as (row & Hrow & Hcaught); [reflexivity|].
  destruct (Hcaught (AttributeError "list" "get"))
    as (_ & Hvalid & Hstatus & Haddr); [reflexivity | reflexivity |].
  exists row. repeat split; assumption.
Defined.

(** C3, as stated, fails: on a response body that decodes to [None]
    (JSON [null]) the test ["error" in result] raises [TypeError] before
    the [try], and no row is returned. *)
Lemma parse_raises_on_null :
  parse_validation_result cpython PNone "10 Main St" "US" true
    = Raise (NotContainer "NoneType").
Proof. reflexivity. Qed.

(* ===================================================================== *)
(** ** What every returned row carries                                    *)
(* ===================================================================== *)

Ltac granularity_cases g :=
  unfold granularity_status;
  repeat match goal with
         | |- context [if eq_str g ?s then _ else _] => destruct (eq_str g s)
         end.

Lemma status_of_nonempty result : status_of result <> "".
Proof.
  unfold status_of. generalize (granularity_of result) as g. intros g.
  destruct (note_applies result); granularity_cases g; discriminate.
Qed.

(** C9, amended. Every returned row has a boolean [is_valid] and a
    non-empty string [validation_status].  On the classification path
    [validated_address] is the response's formatted address when present,
    else the original text; on the API-error and parse-error paths it is
    the original text, whatever the response holds. *)
Theorem result_invariant rt result orig region cass row :
  parse_validation_result rt result orig region cass = Ok row ->
  (exists b, row !! "is_valid" = Some (PBool b)) /\
  (exists s, row !! "validation_status" = Some (PStr s) /\ s <> "") /\
  ((row = classify result orig region cass /\
    row !! "validated_address"
      = Some (default (PStr orig) (field result "address" "formattedAddress")))
   \/ (escaped orig row /\ row !! "validated_address" = Some (PStr orig))).
Proof.
  intros H. apply parse_cases in H as [(e & _ & ->) | [(e & _ & ->) | [_ ->]]].
  - split; [eexists; reflexivity|]. split.
    + eexists. split; [reflexivity|]. discriminate.
    + right. split; [eexists|]; reflexivity.
  - split; [eexists; reflexivity|]. split.
    + eexists. split; [reflexivity|]. discriminate.
    + right. split; [eexists|]; reflexivity.
  - split; [eexists; reflexivity|]. split.
    + eexists. split; [reflexivity|]. apply status_of_nonempty.
    + left. split; reflexivity.
Qed.

Lemma result_invariant_witness :
  exists row,
    parse_validation_result cpython premise_response "10 main st" "US" true = Ok row /\
    row !! "is_valid" = Some (PBool true) /\
    ((row = classify premise_response "10 main st" "US" true /\
      row !! "validated_address"
        = Some (default (PStr "10 main st")
                  (field premise_response "address" "formattedAddress")))
     \/ (escaped "10 main st" row /\
         row !! "validated_address" = Some (PStr "10 main st"))).
Proof.
  eexists. split; [reflexivity|].
  split; [reflexivity|].
  eapply (result_invariant cpython premise_response "10 main st" "US" true).
  reflexivity.
Defined.

(** C9, as stated, fails on the parse-error path: the formatted address
    is present in the response, yet [validated_address] is the original
    text. *)
Lemma validated_address_on_parse_error :
  field null_usps_response "address" "formattedAddress"
    = Some (PStr "10 Main Street, Springfield, IL 62701, USA") /\
  exists row,
    parse_validation_result cpython null_usps_response "10 main st" "US" true = Ok row /\
    row !! "validation_status"
      = Some (PStr "Parse Error: 'NoneType' object has no attribute 'get'") /\
    row !! "validated_address" = Some (PStr "10 main st") /\
    row !! "validated_address"
      <> Some (PStr "10 Main Street, Springfield, IL 62701, USA").
Proof.
  split; [reflexivity|]. eexists. split; [reflexivity|].
  split; [reflexivity|]. split; [reflexivity|]. discriminate.
Qed.

(* ===================================================================== *)
(** ** The granularity table and the inferred note                        *)
(* ===================================================================== *)

(** The if/elif chain is the table. *)
Lemma granularity_status_table g : granularity_status g = table_row g.
Proof.
  destruct g; try reflexivity.
  unfold granularity_status, eq_str, table_row, status_table.
  repeat match goal with
         | |- context [String.eqb s ?k] =>
             destruct (String.eqb_spec s k) as [-> | ?]; [reflexivity|]
         end.
  rewrite !list_to_map_cons, list_to_map_nil.
  rewrite !lookup_insert_ne by congruence.
  rewrite lookup_empty. reflexivity.
Qed.

Lemma classify_status result orig region cass :
  classify result orig region cass !! "validation_status"
    = Some (PStr (status_of result)).
Proof. reflexivity. Qed.

Lemma classify_valid result orig region cass :
  classify result orig region cass !! "is_valid"
    = Some (PBool (snd (granularity_status (granularity_of result)))).
Proof. reflexivity. Qed.

(** C1, amended. On every classified response [is_valid] is the table's
    value for the granularity (["UNKNOWN"] when missing; the last row for
    anything outside the table), and [validation_status] is the table's
    text, alone or followed by the inferred note, and alone whenever the
    note does not apply.  The API-error and parse-error rows have
    [is_valid = False]. *)
Theorem status_follows_table rt result orig region cass row :
  parse_validation_result rt result orig region cass = Ok row ->
  let g := default (PStr "UNKNOWN") (field result "verdict" "validationGranularity") in
  (escaped orig row /\ row !! "is_valid" = Some (PBool false))
  \/ (row !! "is_valid" = Some (PBool (snd (table_row g))) /\
      exists status,
        row !! "validation_status" = Some (PStr status) /\
        (status = fst (table_row g) \/ status = fst (table_row g) +:+ inferred_note) /\
        (note_applies result = false -> status = fst (table_row g))).
Proof.
  intros H g. apply parse_cases_escaped in H as [Hesc | ->].
  - left. split; [exact Hesc|]. destruct Hesc as (status & ->). reflexivity.
  - right. rewrite classify_valid, classify_status.
    unfold status_of, granularity_of. fold g. rewrite granularity_status_table.
    split; [reflexivity|]. eexists. split; [reflexivity|].
    destruct (note_applies result); split; auto; discriminate.
Qed.

Lemma status_follows_table_witness :
  exists row,
    parse_validation_result cpython premise_response "10 main st" "US" true = Ok row /\
    row !! "is_valid" = Some (PBool true) /\
    row !! "validation_status"
      = Some (PStr "Standard Mailable Address (Validated to building)").
Proof.
  eexists. split; [reflexivity|].
  destruct (status_follows_table cpython premise_response "10 main st" "US" true _ eq_refl)
    as [(_ & Hv) | (Hv & status & Hs & _ & Hexact)].
  - discriminate Hv.
  - split; [exact Hv|]. rewrite Hs, (Hexact eq_refl). reflexivity.
Defined.

(** C1, as stated, fails: for PREMISE with inferred components
    [validation_status] is not the table's text but that text followed by
    the note. *)
Lemma status_not_exactly_table :
  field inferred_premise_response "verdict" "validationGranularity"
    = Some (PStr "PREMISE") /\
  exists row,
    parse_validation_result cpython inferred_premise_response "10 main st" "US" true
      = Ok row /\
    row !! "validation_status"
      = Some (PStr "Standard Mailable Address (Validated to building) — Note: Some components were inferred.") /\
    row !! "validation_status"
      <> Some (PStr "Standard Mailable Address (Validated to building)").
Proof.
  split; [reflexivity|]. eexists. split; [reflexivity|].
  split; [reflexivity|]. discriminate.
Qed.

Lemma base_without_note g : endswith (fst (granularity_status g)) inferred_note = false.
Proof. granularity_cases g; reflexivity. Qed.

Lemma base_with_note g :
  endswith (fst (granularity_status g) +:+ inferred_note) inferred_note = true.
Proof. granularity_cases g; reflexivity. Qed.

(** C8. On every classified response the note is appended to the status
    exactly when [hasInferredComponents] is truthy and the granularity is
    SUB_PREMISE, PREMISE or STREET: the status then is the base text
    followed by the note, otherwise the base text, which never ends in
    the note. *)
Theorem inferred_note_iff rt result orig region cass row :
  parse_validation_result rt result orig region cass = Ok row ->
  let g := default (PStr "UNKNOWN") (field result "verdict" "validationGranularity") in
  let inferred :=
    truthy (default (PBool false) (field result "verdict" "hasInferredComponents")) in
  let base := fst (granularity_status g) in
  escaped orig row
  \/ exists status,
       row !! "validation_status" = Some (PStr status) /\
       status = (if inferred && in_str_list g ["SUB_PREMISE"; "PREMISE"; "STREET"]
                 then base +:+ inferred_note else base) /\
       (endswith status inferred_note = true <->
        inferred = true /\
        in_str_list g ["SUB_PREMISE"; "PREMISE"; "STREET"] = true).
Proof.
  intros H g inferred base. apply parse_cases_escaped in H as [Hesc | ->].
  - left. exact Hesc.
  - right. rewrite classify_status. eexists. split; [reflexivity|].
    unfold status_of, note_applies, inferred_of, granularity_of.
    fold g inferred base. split; [reflexivity|].
    destruct (inferred && in_str_list g ["SUB_PREMISE"; "PREMISE"; "STREET"]) eqn:Hc.
    + subst base. rewrite base_with_note. apply andb_true_iff in Hc. tauto.
    + subst base. rewrite base_without_note. split; [discriminate|].
      intros [H1 H2]. rewrite H1, H2 in Hc. discriminate Hc.
Qed.

Lemma inferred_note_iff_witness :
  exists row,
    parse_validation_result cpython inferred_premise_response "10 main st" "US" true
      = Ok row /\
    exists status,
      row !! "validation_status" = Some (PStr status) /\
      endswith status inferred_note = true.
Proof.
  eexists. split; [reflexivity|].
  destruct (inferred_note_iff cpython inferred_premise_response "10 main st" "US" true
              _ eq_refl) as [(status & Hesc) | (status & Hs & _ & Hiff)].
  - discriminate Hesc.
  - exists status. split; [exact Hs|]. apply Hiff. split; reflexivity.
Defined.

(** With inferred components but LOCALITY granularity nothing is
    appended. *)
Example locality_has_no_note :
  exists row,
    parse_validation_result cpython inferred_locality_response "springfield" "US" true
      = Ok row /\
    row !! "validation_status"
      = Some (PStr "Non-Mailable Address (Only city-level validated)").
Proof. eexists. split; reflexivity. Qed.

(* ===================================================================== *)
(** ** The region-gated flags                                             *)
(* ===================================================================== *)

Lemma classify_po_box result orig region cass :
  classify result orig region cass !! "is_po_box"
    = Some (if String.eqb region "US"
            then default (PBool false) (field result "metadata" "poBox")
            else PBool false).
Proof. reflexivity. Qed.

Lemma classify_dpv_confirmed result orig region cass :
  classify result orig region cass !! "is_dpv_confirmed"
    = Some (if String.eqb region "US" then PBool (dpv_is_Y result) else PBool false).
Proof. reflexivity. Qed.

(** C6. For a region other than ["US"] no payload can set [is_po_box] or
    [is_dpv_confirmed]: both are [False] on every classified row (and
    unset on the API-error and parse-error rows, so they read false on
    every row).  For ["US"], [is_po_box] is [metadata.poBox], [False]
    when missing, and [is_dpv_confirmed] is [True] exactly when
    [uspsData.dpvConfirmation] equals ["Y"]. *)
Theorem region_gated_flags rt result orig region cass row :
  parse_validation_result rt result orig region cass = Ok row ->
  (region <> "US" ->
     flag row "is_po_box" = false /\ flag row "is_dpv_confirmed" = false /\
     (escaped orig row \/
      row !! "is_po_box" = Some (PBool false) /\
      row !! "is_dpv_confirmed" = Some (PBool false)))
  /\
  (region = "US" ->
     escaped orig row \/
     row !! "is_po_box"
       = Some (default (PBool false) (field result "metadata" "poBox")) /\
     row !! "is_dpv_confirmed"
       = Some (PBool (eq_str (default PNone (field result "uspsData" "dpvConfirmation")) "Y"))).
Proof.
  intros H. apply parse_cases_escaped in H as [Hesc | ->].
  - split; intros _; [|left; exact Hesc].
    destruct Hesc as (status & ->). unfold flag.
    repeat split. left. eexists. reflexivity.
  - split; intros Hr.
    + apply String.eqb_neq in Hr. unfold flag.
      rewrite classify_po_box, classify_dpv_confirmed, Hr.
      repeat split. right. split; reflexivity.
    + subst region. right. rewrite classify_po_box, classify_dpv_confirmed.
      split; reflexivity.
Qed.

Lemma region_gated_flags_witness :
  (exists row,
     parse_validation_result cpython po_box_response "PO Box 12" "CA" true = Ok row /\
     "CA" <> "US" /\
     row !! "is_po_box" = Some (PBool false) /\
     row !! "is_dpv_confirmed" = Some (PBool false)) /\
  (exists row,
     parse_validation_result cpython po_box_response "PO Box 12" "US" true = Ok row /\
     row !! "is_po_box" = Some (PBool true) /\
     row !! "is_dpv_confirmed" = Some (PBool true)).
Proof.
  split.
  - eexists. split; [reflexivity|]. split; [discriminate|].
    destruct (region_gated_flags cpython po_box_response "PO Box 12" "CA" true _ eq_refl)
      as [Hother _].
    destruct Hother as (_ & _ & [(status & Hesc) | Hflags]); [discriminate | | exact Hflags].
    discriminate Hesc.
  - eexists. split; [reflexivity|].
    destruct (region_gated_flags cpython po_box_response "PO Box 12" "US" true _ eq_refl)
      as [_ Hus].
    destruct (Hus eq_refl) as [(status & Hesc) | Hflags]; [discriminate Hesc | exact Hflags].
Defined.

(* ===================================================================== *)
(** ** The DPV description                                                *)
(* ===================================================================== *)

Lemma classify_description result orig region cass :
  classify result orig region cass !! "dpv_confirmation_description"
    = Some (PStr (description_of result)).
Proof. reflexivity. Qed.

Lemma describe_unlisted c :
  ~ In c ["Y"; "N"; "D"; "S"; "C"; "B"] -> describe (PStr c) = unknown_dpv.
Proof.
  simpl. intros H. unfold describe, dpv_mapping.
  rewrite !list_to_map_cons, list_to_map_nil.
  rewrite !lookup_insert_ne by (intros <-; tauto).
  rewrite lookup_empty. reflexivity.
Qed.

(** C7. On every classified response, and for every region code, the
    description is the table entry of [uspsData.dpvConfirmation], read
    with the default ["N/A"].  The table has the six codes Y, N, D, S, C
    and B; ["Y"] gives ["Address confirmed (Primary and secondary if
    present)."]; every other value, a missing code and a missing
    [uspsData] give ["Unknown DPV Confirmation Code"]. *)
Theorem dpv_description_lookup rt result orig region cass row :
  parse_validation_result rt result orig region cass = Ok row ->
  let code := default (PStr "N/A") (field result "uspsData" "dpvConfirmation") in
  (escaped orig row \/
   row !! "dpv_confirmation_description" = Some (PStr (describe code)))
  /\ dom dpv_mapping = list_to_set ["Y"; "N"; "D"; "S"; "C"; "B"]
  /\ describe (PStr "Y") = "Address confirmed (Primary and secondary if present)."
  /\ (forall c, In c ["Y"; "N"; "D"; "S"; "C"; "B"] ->
        dpv_mapping !! c = Some (describe (PStr c)))
  /\ (forall v, ~ (exists c, v = PStr c /\ In c ["Y"; "N"; "D"; "S"; "C"; "B"]) ->
        describe v = "Unknown DPV Confirmation Code")
  /\ (field result "uspsData" "dpvConfirmation" = None ->
        describe code = "Unknown DPV Confirmation Code").
Proof.
  intros H code. split; [|split; [|split; [|split; [|split]]]].
  - apply parse_cases_escaped in H as [Hesc | ->]; [left; exact Hesc|].
    right. apply classify_description.
  - reflexivity.
  - reflexivity.
  - simpl. intros c Hc.
    repeat (destruct Hc as [<- | Hc]; [reflexivity|]). destruct Hc.
  - intros v Hv. destruct v; try reflexivity.
    apply describe_unlisted. intros Hin. apply Hv. eauto.
  - intros Hnone. subst code. rewrite Hnone. reflexivity.
Qed.

Lemma dpv_description_lookup_witness :
  exists row,
    parse_validation_result cpython po_box_response "PO Box 12" "CA" false = Ok row /\
    row !! "dpv_confirmation_description"
      = Some (PStr "Address confirmed (Primary and secondary if present).").
Proof.
  eexists. split; [reflexivity|].
  destruct (dpv_description_lookup cpython po_box_response "PO Box 12" "CA" false _ eq_refl)
    as ([(status & Hesc) | Hd] & _); [discriminate Hesc | exact Hd].
Defined.

(** An unlisted code and a response without [uspsData] *)
Example unknown_code_described :
  describe (PStr "Z") = "Unknown DPV Confirmation Code" /\
  exists row,
    parse_validation_result cpython inferred_premise_response "10 main st" "FR" true
      = Ok row /\
    row !! "dpv_confirmation_description"
      = Some (PStr "Unknown DPV Confirmation Code").
Proof. split; [reflexivity|]. eexists. split; reflexivity. Qed.

(* ===================================================================== *)
(** ** The confirmation flag                                              *)
(* ===================================================================== *)

Lemma pand_truthy a b : truthy (pand a b) = truthy a && truthy b.
Proof. unfold pand. destruct (truthy a) eqn:Ha; simpl; [reflexivity | exact Ha]. Qed.

Lemma pand_true_bool a b :
  (truthy b = true -> b = PBool true) ->
  truthy (pand a b) = true -> pand a b = PBool true.
Proof.
  unfold pand. intros Hb. destruct (truthy a) eqn:Ha; [exact Hb|].
  intros H. congruence.
Qed.

Lemma pnot_true_bool a : truthy (pnot a) = true -> pnot a = PBool true.
Proof. unfold pnot. simpl. intros ->. reflexivity. Qed.

Lemma confirmed_base_truthy result :
  truthy (confirmed_base result) = confirm_conditions result.
Proof.
  unfold confirmed_base, confirm_conditions, is_true, is_empty, verdict_or_none.
  rewrite !pand_truthy. unfold pnot. simpl. rewrite !andb_assoc. reflexivity.
Qed.

Lemma confirmed_base_bool result :
  truthy (confirmed_base result) = true -> confirmed_base result = PBool true.
Proof.
  unfold confirmed_base.
  repeat apply pand_true_bool. apply pnot_true_bool.
Qed.

Lemma confirmed_of_truthy result region cass :
  truthy (confirmed_of result region cass)
    = confirm_conditions result && cass_condition result region cass.
Proof.
  unfold confirmed_of, cass_condition.
  destruct (String.eqb region "US" && cass).
  - rewrite pand_truthy, confirmed_base_truthy. reflexivity.
  - rewrite confirmed_base_truthy, andb_true_r. reflexivity.
Qed.

Lemma confirmed_of_bool result region cass :
  truthy (confirmed_of result region cass) = true ->
  confirmed_of result region cass = PBool true.
Proof.
  unfold confirmed_of.
  destruct (String.eqb region "US" && cass).
  - apply pand_true_bool. simpl. intros ->. reflexivity.
  - apply confirmed_base_bool.
Qed.

(** The value is a boolean, except that a falsy [addressComplete] (or
    [None] for a missing one) is handed on as it is. *)
Lemma confirmed_of_shape result region cass :
  (exists b, confirmed_of result region cass = PBool b)
  \/ confirmed_of result region cass
       = default PNone (field result "verdict" "addressComplete").
Proof.
  unfold confirmed_of, confirmed_base, pand, pnot, verdict_or_none.
  repeat match goal with
         | |- context [if ?c then _ else _] => destruct c
         end; eauto.
Qed.

Lemma classify_confirmed result orig region cass :
  classify result orig region cass !! "is_confirmed"
    = Some (confirmed_of result region cass).
Proof. reflexivity. Qed.

(** C2. On every classified response [is_confirmed] is [True] exactly
    when the granularity is PREMISE or SUB_PREMISE, [addressComplete] is
    true, [hasInferredComponents] and [hasReplacedComponents] are not,
    [unconfirmedComponentTypes], [missingComponentTypes] and
    [unresolvedTokens] are empty and, for region ["US"] with CASS
    enabled, [uspsData.dpvConfirmation] equals ["Y"].  As soon as one of
    them fails, [is_confirmed] is falsy: it is [False], or the falsy
    [addressComplete] itself ([None] when that key is missing).  The
    API-error and parse-error rows do not set it. *)
Theorem is_confirmed_conditions rt result orig region cass row :
  parse_validation_result rt result orig region cass = Ok row ->
  (escaped orig row /\ row !! "is_confirmed" = None)
  \/ exists v,
       row !! "is_confirmed" = Some v /\
       (v = PBool true <->
        confirm_conditions result = true /\
        cass_condition result region cass = true) /\
       truthy v = confirm_conditions result && cass_condition result region cass /\
       ((exists b, v = PBool b) \/
        v = default PNone (field result "verdict" "addressComplete")).
Proof.
  intros H. apply parse_cases_escaped in H as [Hesc | ->].
  - left. split; [exact Hesc|]. destruct Hesc as (status & ->). reflexivity.
  - right. exists (confirmed_of result region cass).
    split; [apply classify_confirmed|].
    split; [|split; [apply confirmed_of_truthy | apply confirmed_of_shape]].
    rewrite <- andb_true_iff, <- confirmed_of_truthy. split.
    + intros ->. reflexivity.
    + apply confirmed_of_bool.
Qed.

Lemma is_confirmed_conditions_witness :
  exists row,
    parse_validation_result cpython premise_response "10 main st" "US" true = Ok row /\
    row !! "is_confirmed" = Some (PBool true) /\
    confirm_conditions premise_response = true /\
    cass_condition premise_response "US" true = true.
Proof.
  eexists. split; [reflexivity|].
  destruct (is_confirmed_conditions cpython premise_response "10 main st" "US" true
              _ eq_refl) as [(_ & Hnone) | (v & Hv & Hiff & _ & _)].
  - discriminate Hnone.
  - split; [reflexivity|]. apply Hiff. injection Hv as <-. reflexivity.
Defined.

(** Without a DPV confirmation the verdict is confirmed when CASS is off
    or the region is not the US, and not confirmed under CASS for the US;
    a missing [addressComplete] leaves [None], which is falsy. *)
Example cass_gates_confirmation :
  (exists row,
     parse_validation_result cpython unconfirmed_dpv_response "10 main st" "US" true
       = Ok row /\ row !! "is_confirmed" = Some (PBool false)) /\
  (exists row,
     parse_validation_result cpython unconfirmed_dpv_response "10 main st" "US" false
       = Ok row /\ row !! "is_confirmed" = Some (PBool true)) /\
  (exists row,
     parse_validation_result cpython unconfirmed_dpv_response "10 main st" "CA" true
       = Ok row /\ row !! "is_confirmed" = Some (PBool true)) /\
  (exists row,
     parse_validation_result cpython inferred_premise_response "10 main st" "US" true
       = Ok row /\ row !! "is_confirmed" = Some PNone).
Proof. repeat split; eexists; split; reflexivity. Qed.

(* ===================================================================== *)
(** ** The address lines of a request                                     *)
(* ===================================================================== *)

Lemma mem_true x l : mem x l = true <-> x ∈ l.
Proof. unfold mem. apply bool_decide_eq_true. Qed.

Lemma mem_false x l : mem x l = false <-> x ∉ l.
Proof. unfold mem. apply bool_decide_eq_false. Qed.

Lemma NoDup_nub l : NoDup (nub l).
Proof.
  induction l as [|x l IH]; simpl; [constructor|].
  apply NoDup_cons. split.
  - rewrite list_elem_of_filter. tauto.
  - apply NoDup_filter, IH.
Qed.

Lemma elem_of_nub x l : x ∈ nub l <-> x ∈ l.
Proof.
  induction l as [|y l IH]; simpl; [reflexivity|].
  rewrite !elem_of_cons, list_elem_of_filter, IH.
  destruct (decide (x = y)); tauto.
Qed.

Lemma comp_key_Some {A B} k (x : A) (f : A -> res B) :
  comp_key k (Some x) ≫= f = f x.
Proof. reflexivity. Qed.

Lemma comp_key_None {A B} k (f : A -> res B) :
  comp_key k None ≫= f = Raise (KeyError k).
Proof. reflexivity. Qed.

Ltac comp_key_cases field :=
  destruct field; [rewrite comp_key_Some | rewrite comp_key_None; discriminate].

(** What one round of the loop does to the list of names *)
Lemma file_component_names cs acc comp cs' acc' :
  file_component (cs, acc) comp = Ok (cs', acc') ->
  (is_poi comp = true /\
   exists name, long_name comp = Some name /\
                acc' = if mem name acc then acc else acc ++ [name])
  \/ (is_poi comp = false /\ acc' = acc).
Proof.
  unfold file_component, is_poi.
  comp_key_cases (types comp).
  destruct (existsb (fun t => mem t l) poi_tags).
  - comp_key_cases (long_name comp).
    intros H. left. split; [reflexivity|]. eexists. split; [reflexivity|].
    destruct (mem _ acc); congruence.
  - intros H. right. split; [reflexivity|].
    repeat match type of H with
           | (if ?c then _ else _) = _ => destruct c
           end;
      try (destruct (long_name comp); [rewrite comp_key_Some in H
                                      | rewrite comp_key_None in H; discriminate]);
      try (destruct (short_name comp); [rewrite comp_key_Some in H
                                       | rewrite comp_key_None in H; discriminate]);
      congruence.
Qed.

(** The loop collects the deduplicated names behind what it started
    with. *)
Lemma file_components_names comps cs acc cs' pois :
  file_components (cs, acc) comps = Ok (cs', pois) ->
  pois = acc ++ filter (fun y => y ∉ acc) (nub (poi_long_names comps)).
Proof.
  revert cs acc. induction comps as [|comp comps IH]; intros cs acc H; simpl in H.
  - injection H as _ <-. simpl. rewrite app_nil_r. reflexivity.
  - apply bind_Ok in H as ([cs1 acc1] & Hstep & Hrest).
    apply IH in Hrest. subst pois.
    apply file_component_names in Hstep
      as [(Hpoi & name & Hname & ->) | (Hpoi & ->)];
      unfold poi_long_names; simpl; rewrite Hpoi; [|reflexivity].
    rewrite Hname. simpl. fold (poi_long_names comps).
    destruct (mem name acc) eqn:Hmem.
    + apply mem_true in Hmem.
      rewrite filter_cons_False by tauto.
      rewrite list_filter_filter_l; [reflexivity|].
      intros y Hy ->. tauto.
    + apply mem_false in Hmem.
      rewrite filter_cons_True by exact Hmem.
      rewrite list_filter_filter, <- app_assoc. simpl. do 2 f_equal.
      apply list_filter_iff. intros y.
      rewrite elem_of_app, list_elem_of_singleton. tauto.
Qed.

Lemma filter_fresh (l : list string) : filter (fun y => y ∉ []) l = l.
Proof.
  induction l as [|x l IH]; [reflexivity|].
  rewrite filter_cons_True by apply not_elem_of_nil. rewrite IH. reflexivity.
Qed.

Lemma NoDup_build_address_lines pois orig formatted :
  NoDup pois -> NoDup (build_address_lines pois orig formatted).
Proof.
  intros Hnd. unfold build_address_lines.
  assert (Hfront : NoDup (if mem orig pois then pois else orig :: pois)).
  { destruct (mem orig pois) eqn:Hm; [exact Hnd|].
    apply NoDup_cons. split; [apply mem_false, Hm | exact Hnd]. }
  destruct (mem formatted _) eqn:Hm; [exact Hfront|].
  apply NoDup_app. split; [exact Hfront|]. split.
  - intros x Hx Hin. apply list_elem_of_singleton in Hin as ->.
    apply mem_false in Hm. tauto.
  - apply NoDup_singleton.
Qed.

(** C4, amended. The address lines are: the original text, unless it is
    one of the point-of-interest names; then all point-of-interest names
    in encounter order, deduplicated; then the formatted address, unless
    already present.  No entry occurs twice. *)
Theorem address_lines_order geocode orig req :
  build_validation_request geocode orig = Ok req ->
  let pois := nub (poi_long_names (default [] (address_components geocode))) in
  let formatted := default "" (formatted_address geocode) in
  let front := if mem orig pois then pois else orig :: pois in
  addressLines req = (if mem formatted front then front else front ++ [formatted])
  /\ NoDup (addressLines req).
Proof.
  unfold build_validation_request. intros H.
  apply bind_Ok in H as ([cs names] & Hloop & H). injection H as <-. simpl.
  apply file_components_names in Hloop. simpl in Hloop.
  rewrite filter_fresh in Hloop. subst names.
  split; [reflexivity|]. apply NoDup_build_address_lines, NoDup_nub.
Qed.

Lemma address_lines_order_witness :
  exists req,
    build_validation_request harvard_geocode "Harvard" = Ok req /\
    addressLines req = ["Harvard"; "Harvard University"; "Cambridge, MA 02138"] /\
    NoDup (addressLines req).
Proof.
  eexists. split; [reflexivity|].
  destruct (address_lines_order harvard_geocode "Harvard" _ eq_refl) as [Hlines Hnd].
  split; [exact Hlines | exact Hnd].
Defined.

(** C4, as stated, fails on its own example: the original text is put in
    front of the point-of-interest name, not behind it. *)
Lemma harvard_lines_differ :
  exists req,
    build_validation_request harvard_geocode "Harvard" = Ok req /\
    addressLines req = ["Harvard"; "Harvard University"; "Cambridge, MA 02138"] /\
    addressLines req <> ["Harvard University"; "Harvard"; "Cambridge, MA 02138"].
Proof.
  eexists. split; [reflexivity|]. split; [reflexivity|]. discriminate.
Qed.

(** When the original text is a point-of-interest name it is not added. *)
Example original_not_repeated :
  exists req,
    build_validation_request harvard_geocode "Harvard University" = Ok req /\
    addressLines req = ["Harvard University"; "Cambridge, MA 02138"].
Proof. eexists. split; reflexivity. Qed.

(* ===================================================================== *)
(** ** The batch driver and the CASS setting                              *)
(* ===================================================================== *)

Section DriverFacts.
Context (rt : runtime) {World : Type}.
Context (geocode_call : string -> string -> World -> res (list geocode_result) * World).
Context (validate_call : validation_request -> string -> World -> (pyval + string) * World).

Abbreviation row_step := (process_row rt geocode_call validate_call).
Abbreviation rows_loop := (process_rows rt geocode_call validate_call).
Abbreviation from_row := (classified_with_defaults rt geocode_call validate_call).

Lemma io_bind_Ok {A B} (m : io A) (f : A -> io B) w b w' :
  io_bind (World := World) m f w = (Ok b, w') ->
  exists a w1, m w = (Ok a, w1) /\ f a w1 = (Ok b, w').
Proof.
  unfold io_bind. destruct (m w) as [[a|e] w1]; [eauto | discriminate].
Qed.

Lemma validate_ignores_cass address api_key cass cass' region region' :
  validate_address_google geocode_call validate_call address api_key cass region
    = validate_address_google geocode_call validate_call address api_key cass' region'.
Proof. reflexivity. Qed.

Lemma process_row_ignores_cass col key cass cass' st row :
  row_step col key cass st row = row_step col key cass' st row.
Proof. reflexivity. Qed.

Lemma process_rows_ignores_cass col key cass cass' df st w :
  rows_loop col key cass st df w = rows_loop col key cass' st df w.
Proof.
  revert st w. induction df as [|row df IH]; intros st w; [reflexivity|].
  simpl. unfold io_bind. rewrite (process_row_ignores_cass col key cass cass').
  destruct (row_step col key cass' st row w) as [[st'|e] w1]; [apply IH | reflexivity].
Qed.

Lemma process_row_Ok col key cass st row w st' w' :
  row_step col key cass st row w = (Ok st', w') ->
  exists out,
    from_row col key row out /\
    results st' = results st ++ [out].
Proof.
  unfold process_row. intros H.
  apply io_bind_Ok in H as (cell & w1 & Hcell & H).
  apply io_bind_Ok in H as (response & w2 & Hresp & H).
  apply io_bind_Ok in H as (parsed & w3 & Hparsed & H).
  apply io_bind_Ok in H as (is_valid & w4 & _ & H).
  unfold io_ret in H. injection H as <- _. simpl.
  unfold lift in Hcell, Hparsed. injection Hcell as Hcell <-.
  injection Hparsed as Hparsed <-.
  simpl in Hcell. destruct (row !! col) as [c|] eqn:Hc; [|discriminate].
  injection Hcell as ->.
  eexists. split; [|reflexivity].
  exists cell, response, parsed. repeat split; eauto.
Qed.

Lemma process_rows_Ok col key cass df st w st' w' :
  rows_loop col key cass st df w = (Ok st', w') ->
  exists outs,
    results st' = results st ++ outs /\
    Forall2 (from_row col key) df outs.
Proof.
  revert st w. induction df as [|row df IH]; intros st w H; simpl in H.
  - unfold io_ret in H. injection H as <- _. exists [].
    rewrite app_nil_r. split; [reflexivity | constructor].
  - apply io_bind_Ok in H as (st1 & w1 & Hrow & Hrest).
    apply process_row_Ok in Hrow as (out & Hout & Hres).
    apply IH in Hrest as (outs & Hres' & Hall).
    exists (out :: outs). split.
    + rewrite Hres', Hres, <- app_assoc. reflexivity.
    + constructor; assumption.
Qed.

(** C10. The driver classifies every row with the keyword defaults of
    the classifier, region ["US"] and CASS enabled: each output row is
    the input row updated with [parse_validation_result(response,
    address, "US", True)].  The [enable_cass] the driver was given never
    reaches the classifier (nor the request): the driver returns the
    same for either value. *)
Theorem driver_classifies_with_defaults df col key cass w :
  process_addresses rt geocode_call validate_call df col key cass w
    = process_addresses rt geocode_call validate_call df col key (negb cass) w
  /\ (default_region_code = "US" /\ default_enable_usps_cass = true)
  /\ forall outs w',
       process_addresses rt geocode_call validate_call df col key cass w
         = (Ok outs, w') ->
       Forall2 (from_row col key) df outs.
Proof.
  split; [|split; [split; reflexivity|]].
  - unfold process_addresses, io_bind.
    rewrite (process_rows_ignores_cass col key cass (negb cass)). reflexivity.
  - intros outs w' H. unfold process_addresses in H.
    apply io_bind_Ok in H as (st & w1 & Hloop & H).
    unfold io_ret in H. injection H as <- _.
    apply process_rows_Ok in Hloop as (outs & -> & Hall). exact Hall.
Qed.

End DriverFacts.

(** Called with CASS disabled, the driver still reports the row as not
    confirmed: the classifier ran with CASS enabled (compare
    [cass_gates_confirmation]). *)
Lemma driver_classifies_with_defaults_witness :
  exists out,
    process_addresses cpython canned_geocode canned_validate
      one_row_sheet "address" "key" false 0 = (Ok [out], 2) /\
    out !! "is_confirmed" = Some (PBool false) /\
    out !! "address" = Some (PStr "Harvard") /\
    Forall2 (classified_with_defaults cpython canned_geocode canned_validate
               "address" "key") one_row_sheet [out].
Proof.
  eexists. split; [reflexivity|]. split; [reflexivity|]. split; [reflexivity|].
  eapply (driver_classifies_with_defaults cpython canned_geocode canned_validate
            one_row_sheet "address" "key" false 0).
  reflexivity.
Defined.

(* ===================================================================== *)
(** ** Further properties of the classifier                               *)
(* ===================================================================== *)

(** X1. The function returns a row exactly on the accepted inputs: dicts,
    and lists or strings without ["error"].  On [None], a number or a
    boolean the membership test raises; on a list or string containing
    ["error"] the subscript of the API-error branch raises. *)
Theorem parse_returns_iff_accepted rt result orig region cass :
  ((exists row, parse_validation_result rt result orig region cass = Ok row)
     <-> accepts result = true)
  /\ (accepts result = false ->
      parse_validation_result rt result orig region cass = Raise (rejection result)).
Proof.
  assert (Hrej : accepts result = false ->
    parse_validation_result rt result orig region cass = Raise (rejection result)).
  { unfold parse_validation_result.
    destruct result; simpl; try discriminate; try reflexivity; intros H.
    - apply negb_false_iff in H. rewrite H. reflexivity.
    - apply negb_false_iff in H. rewrite H. reflexivity. }
  split; [|exact Hrej]. split.
  - intros (row & Hrow). destruct (accepts result) eqn:Ha; [reflexivity|].
    rewrite (Hrej eq_refl) in Hrow. discriminate Hrow.
  - intros Ha. unfold parse_validation_result.
    destruct (accepts_contains _ Ha) as [(d & ->) | Hc].
    + rewrite contains_str_dict, bind_Ok_l.
      destruct (bool_decide (is_Some (d !! "error"))) eqn:Hd.
      * apply bool_decide_eq_true in Hd as (x & Hx). simpl. rewrite Hx. simpl. eauto.
      * destruct (parse_body (PDict d) orig region cass); eauto.
    + rewrite Hc, bind_Ok_l.
      destruct (parse_body result orig region cass); eauto.
Qed.

Lemma parse_returns_iff_accepted_witness :
  accepts (PList [PInt 4; PStr "error"]) = false /\
  parse_validation_result cpython (PList [PInt 4; PStr "error"]) "10 Main St" "US" true
    = Raise (BadIndex "list").
Proof.
  split; [reflexivity|].
  apply (parse_returns_iff_accepted cpython (PList [PInt 4; PStr "error"])
           "10 Main St" "US" true).
  reflexivity.
Defined.

(** X2. A returned row is the classification exactly when the response
    is well-formed: no ["error"] key, every section that is read a dict
    or missing, the hashed values hashable.  Otherwise it is the
    API-error or the parse-error row. *)
Theorem classified_iff_well_formed rt result orig region cass row :
  parse_validation_result rt result orig region cass = Ok row ->
  (well_formed result region = true <-> row = classify result orig region cass)
  /\ (well_formed result region = false <-> escaped orig row).
Proof.
  intros H.
  assert (Hne : forall status,
            classify result orig region cass <> error_row orig status).
  { intros status Heq.
    assert (Hk : classify result orig region cass !! "is_confirmed"
                 = error_row orig status !! "is_confirmed") by (rewrite Heq; reflexivity).
    rewrite classify_confirmed in Hk. discriminate Hk. }
  apply parse_dichotomy in H as [(Hw & ->) | (Hw & Hesc)]; rewrite Hw.
  - split; split; try tauto; try discriminate.
    intros (status & Heq). destruct (Hne _ Heq).
  - split; split; try tauto; try discriminate.
    intros ->. destruct Hesc as (status & Heq). destruct (Hne _ Heq).
Qed.

Lemma classified_iff_well_formed_witness :
  exists row,
    parse_validation_result cpython null_usps_response "10 main st" "US" true = Ok row /\
    well_formed null_usps_response "US" = false /\
    escaped "10 main st" row.
Proof.
  eexists. split; [reflexivity|]. split; [reflexivity|].
  apply (classified_iff_well_formed cpython null_usps_response "10 main st" "US" true
           _ eq_refl).
  reflexivity.
Defined.

Lemma dom_error_row orig status : dom (error_row orig status) = error_keys.
Proof. unfold error_row. rewrite !dom_insert_L, dom_empty_L. reflexivity. Qed.

Lemma dom_classify result orig region cass :
  dom (classify result orig region cass) = classified_keys.
Proof.
  unfold classify, classified_row. rewrite !dom_insert_L, dom_empty_L. reflexivity.
Qed.

(** X3. A row has one of two key sets: the twelve keys of a
    classification, or the seven keys of an error row.  The latitude and
    longitude the [try] block reads are never returned: a classification
    has no ["lat"]/["lng"] key, and an error row holds [None] there. *)
Theorem row_keys rt result orig region cass row :
  parse_validation_result rt result orig region cass = Ok row ->
  ((well_formed result region = true /\ dom row = classified_keys /\
    row !! "lat" = None /\ row !! "lng" = None)
   \/ (well_formed result region = false /\ dom row = error_keys /\
       row !! "lat" = Some PNone /\ row !! "lng" = Some PNone))
  /\ row !! "original_address" = Some (PStr orig).
Proof.
  intros H. apply parse_dichotomy in H as [(Hw & ->) | (Hw & status & ->)].
  - split; [left|reflexivity]. split; [exact Hw|].
    split; [apply dom_classify|]. split; reflexivity.
  - split; [right|reflexivity]. split; [exact Hw|].
    split; [apply dom_error_row|]. split; reflexivity.
Qed.

Lemma row_keys_witness :
  exists row,
    parse_validation_result cpython vacant_response "10 main st" "US" true = Ok row /\
    field vacant_response "geocode" "location"
      = Some (obj [("lat", PInt 39); ("lng", PInt (-89))]) /\
    dom row = classified_keys /\ row !! "lat" = None /\ row !! "lng" = None.
Proof.
  eexists. split; [reflexivity|]. split; [reflexivity|].
  destruct (row_keys cpython vacant_response "10 main st" "US" true _ eq_refl)
    as [[(_ & Hdom & Hlat & Hlng) | (Hw & _)] _].
  - repeat split; assumption.
  - discriminate Hw.
Defined.

Lemma classify_usps_flags result orig region cass :
  classify result orig region cass !! "is_vacant"
    = Some (default (PBool false) (field result "uspsData" "dpvVacant")) /\
  classify result orig region cass !! "is_no_stat"
    = Some (default (PBool false) (field result "uspsData" "dpvNoStat")) /\
  classify result orig region cass !! "is_cmra"
    = Some (default (PBool false) (field result "uspsData" "dpvCmra")) /\
  classify result orig region cass !! "is_undeliverable"
    = Some (default (PBool false) (field result "uspsData" "undeliverable")).
Proof. repeat split. Qed.

(** X4. On a well-formed response the four remaining flags are handed
    through from [uspsData] as they are, [False] when missing, and for
    every region code: unlike [is_po_box] they are not region-gated. *)
Theorem usps_flags_pass_through rt result orig region cass row :
  parse_validation_result rt result orig region cass = Ok row ->
  well_formed result region = true ->
  row !! "is_vacant"
    = Some (default (PBool false) (field result "uspsData" "dpvVacant")) /\
  row !! "is_no_stat"
    = Some (default (PBool false) (field result "uspsData" "dpvNoStat")) /\
  row !! "is_cmra"
    = Some (default (PBool false) (field result "uspsData" "dpvCmra")) /\
  row !! "is_undeliverable"
    = Some (default (PBool false) (field result "uspsData" "undeliverable")).
Proof.
  intros H Hw. apply parse_dichotomy in H as [(_ & ->) | (Hw' & _)].
  - apply classify_usps_flags.
  - congruence.
Qed.

Lemma usps_flags_pass_through_witness :
  exists row,
    parse_validation_result cpython vacant_response "10 main st" "FR" true = Ok row /\
    well_formed vacant_response "FR" = true /\
    row !! "is_vacant" = Some (PBool true) /\
    row !! "is_no_stat" = Some (PBool false) /\
    row !! "is_cmra" = Some (PBool true) /\
    row !! "is_undeliverable" = Some (PBool false).
Proof.
  eexists. split; [reflexivity|]. split; [reflexivity|].
  apply (usps_flags_pass_through cpython vacant_response "10 main st" "FR" true
           _ eq_refl eq_refl).
Defined.

Lemma classify_ungated result orig region cass region' cass' key :
  ~ In key gated_keys ->
  classify result orig region cass !! key = classify result orig region' cass' !! key.
Proof.
  intros Hk. unfold classify, classified_row.
  repeat (rewrite (lookup_insert _ _ key);
          case_decide; [try reflexivity; subst key; simpl in Hk; tauto|]).
  reflexivity.
Qed.

(** X5. [region_code] and [enable_usps_cass] decide nothing but
    [is_po_box], [is_dpv_confirmed] and [is_confirmed]: two
    classifications of one response agree on every other key. *)
Theorem only_three_keys_gated rt result orig region cass region' cass' row row' :
  parse_validation_result rt result orig region cass = Ok row ->
  parse_validation_result rt result orig region' cass' = Ok row' ->
  well_formed result region = true ->
  well_formed result region' = true ->
  forall key, ~ In key gated_keys -> row !! key = row' !! key.
Proof.
  intros H H' Hw Hw' key Hk.
  apply parse_dichotomy in H as [(_ & ->) | (Hx & _)]; [|congruence].
  apply parse_dichotomy in H' as [(_ & ->) | (Hx & _)]; [|congruence].
  apply classify_ungated, Hk.
Qed.

Lemma only_three_keys_gated_witness :
  exists row row',
    parse_validation_result cpython po_box_response "PO Box 12" "US" true = Ok row /\
    parse_validation_result cpython po_box_response "PO Box 12" "CA" false = Ok row' /\
    row !! "validation_status" = row' !! "validation_status" /\
    row !! "dpv_confirmation_description" = row' !! "dpv_confirmation_description" /\
    row !! "is_po_box" <> row' !! "is_po_box".
Proof.
  eexists. eexists. split; [reflexivity|]. split; [reflexivity|].
  pose proof (only_three_keys_gated cpython po_box_response "PO Box 12"
                "US" true "CA" false _ _ eq_refl eq_refl eq_refl eq_refl) as Hsame.
  split; [|split].
  - apply Hsame. simpl. intros [H|[H|[H|[]]]]; discriminate H.
  - apply Hsame. simpl. intros [H|[H|[H|[]]]]; discriminate H.
  - discriminate.
Defined.

(** X6. Outside the US the CASS switch does nothing at all: the function
    returns, or raises, the same with it on or off. *)
Theorem cass_inert_outside_us rt result orig region :
  region <> "US" ->
  parse_validation_result rt result orig region true
    = parse_validation_result rt result orig region false.
Proof.
  intros Hr. apply String.eqb_neq in Hr.
  unfold parse_validation_result, parse_body. rewrite Hr. reflexivity.
Qed.

Lemma cass_inert_outside_us_witness :
  "CA" <> "US" /\
  parse_validation_result cpython unconfirmed_dpv_response "10 main st" "CA" true
    = parse_validation_result cpython unconfirmed_dpv_response "10 main st" "CA" false.
Proof.
  split; [discriminate|].
  apply (cass_inert_outside_us cpython unconfirmed_dpv_response "10 main st" "CA").
  discriminate.
Defined.

Lemma valid_iff_mailable g :
  snd (granularity_status g) = in_str_list g ["SUB_PREMISE"; "PREMISE"; "STREET"].
Proof.
  unfold in_str_list. simpl existsb. granularity_cases g; reflexivity.
Qed.

Lemma premise_is_mailable o :
  in_str_list (default PNone o) ["PREMISE"; "SUB_PREMISE"] = true ->
  in_str_list (default (PStr "UNKNOWN") o) ["SUB_PREMISE"; "PREMISE"; "STREET"] = true.
Proof.
  destruct o as [v|]; [|discriminate]. unfold in_str_list. simpl.
  destruct (eq_str v "PREMISE"), (eq_str v "SUB_PREMISE"); simpl; congruence.
Qed.

(** A confirmed classification is valid and, under CASS for the US, DPV
    confirmed. *)
Lemma classify_confirmed_facts result orig region cass :
  classify result orig region cass !! "is_confirmed" = Some (PBool true) ->
  classify result orig region cass !! "is_valid" = Some (PBool true) /\
  (region = "US" -> cass = true ->
   classify result orig region cass !! "is_dpv_confirmed" = Some (PBool true)).
Proof.
  rewrite classify_confirmed, classify_valid, classify_dpv_confirmed.
  intros Hc. injection Hc as Hc.
  assert (Ht : truthy (confirmed_of result region cass) = true) by (rewrite Hc; reflexivity).
  rewrite confirmed_of_truthy in Ht. apply andb_true_iff in Ht as [Hcond Hcass].
  split.
  - rewrite valid_iff_mailable. unfold granularity_of.
    rewrite premise_is_mailable; [reflexivity|].
    unfold confirm_conditions in Hcond. rewrite !andb_true_iff in Hcond. tauto.
  - intros -> ->. unfold cass_condition in Hcass. simpl in Hcass.
    unfold dpv_is_Y. simpl. rewrite Hcass. reflexivity.
Qed.

(** X7. A row with [is_confirmed = True] has [is_valid = True]; when the
    region is ["US"] and CASS is enabled it also has
    [is_dpv_confirmed = True]. *)
Theorem confirmed_implies_valid rt result orig region cass row :
  parse_validation_result rt result orig region cass = Ok row ->
  row !! "is_confirmed" = Some (PBool true) ->
  row !! "is_valid" = Some (PBool true) /\
  (region = "US" -> cass = true -> row !! "is_dpv_confirmed" = Some (PBool true)).
Proof.
  intros H Hc. apply parse_cases_escaped in H as [(status & ->) | ->].
  - discriminate Hc.
  - apply classify_confirmed_facts, Hc.
Qed.

Lemma confirmed_implies_valid_witness :
  exists row,
    parse_validation_result cpython premise_response "10 main st" "US" true = Ok row /\
    row !! "is_confirmed" = Some (PBool true) /\
    row !! "is_valid" = Some (PBool true) /\
    row !! "is_dpv_confirmed" = Some (PBool true).
Proof.
  eexists. split; [reflexivity|]. split; [reflexivity|].
  destruct (confirmed_implies_valid cpython premise_response "10 main st" "US" true
              _ eq_refl eq_refl) as [Hvalid Hdpv].
  split; [exact Hvalid | exact (Hdpv eq_refl eq_refl)].
Defined.

(** X8. On a classified row the status ends in the inferred note exactly
    when the response has inferred components and the row is valid: an
    invalid row never carries the note. *)
Theorem note_marks_valid_inferred rt result orig region cass row :
  parse_validation_result rt result orig region cass = Ok row ->
  well_formed result region = true ->
  exists status valid,
    row !! "validation_status" = Some (PStr status) /\
    row !! "is_valid" = Some (PBool valid) /\
    (endswith status inferred_note = true <->
     inferred_of result = true /\ valid = true).
Proof.
  intros H Hw. apply parse_dichotomy in H as [(_ & ->) | (Hx & _)]; [|congruence].
  eexists. eexists. split; [apply classify_status|]. split; [apply classify_valid|].
  rewrite valid_iff_mailable. unfold status_of, note_applies.
  destruct (inferred_of result &&
            in_str_list (granularity_of result) ["SUB_PREMISE"; "PREMISE"; "STREET"]) eqn:Hc.
  - rewrite base_with_note. apply andb_true_iff in Hc. tauto.
  - rewrite base_without_note. split; [discriminate|].
    intros [H1 H2]. rewrite H1, H2 in Hc. discriminate Hc.
Qed.

Lemma note_marks_valid_inferred_witness :
  exists row,
    parse_validation_result cpython inferred_locality_response "springfield" "US" true
      = Ok row /\
    well_formed inferred_locality_response "US" = true /\
    inferred_of inferred_locality_response = true /\
    row !! "is_valid" = Some (PBool false) /\
    exists status,
      row !! "validation_status" = Some (PStr status) /\
      endswith status inferred_note = false.
Proof.
  eexists. split; [reflexivity|]. split; [reflexivity|]. split; [reflexivity|].
  split; [reflexivity|].
  destruct (note_marks_valid_inferred cpython inferred_locality_response "springfield"
              "US" true _ eq_refl eq_refl) as (status & valid & Hs & Hv & Hiff).
  exists status. split; [exact Hs|].
  injection Hv as <-.
  destruct (endswith status inferred_note); [|reflexivity].
  destruct Hiff as [Hiff _]. destruct (Hiff eq_refl) as [_ Hfalse]. discriminate Hfalse.
Defined.

(** X9. [_map_dpv_confirmation] raises on a list or a dict (they cannot
    be hashed for the table lookup) and returns a non-empty text on
    everything else.  The six texts differ from each other and from the
    unknown-code text, so the text identifies the code: it is the
    unknown-code text exactly when the value is none of the six codes. *)
Theorem dpv_text_identifies_code code :
  (hashable code = false ->
   _map_dpv_confirmation code = Raise (Unhashable (type_name code)))
  /\ (hashable code = true ->
      _map_dpv_confirmation code = Ok (describe code) /\ describe code <> "")
  /\ (describe code = unknown_dpv <->
      ~ exists c, code = PStr c /\ In c ["Y"; "N"; "D"; "S"; "C"; "B"])
  /\ (forall c c',
        In c ["Y"; "N"; "D"; "S"; "C"; "B"] ->
        describe (PStr c) = describe (PStr c') -> c = c').
Proof.
  split; [|split; [|split]].
  - destruct code; simpl; try discriminate; reflexivity.
  - intros Hh. split.
    + unfold _map_dpv_confirmation. rewrite hash_check_hashable by exact Hh. reflexivity.
    + destruct code; try discriminate.
      destruct (decide (In s ["Y"; "N"; "D"; "S"; "C"; "B"])) as [Hin | Hout].
      * simpl in Hin. repeat (destruct Hin as [<- | Hin]; [discriminate|]). destruct Hin.
      * rewrite describe_unlisted by exact Hout. discriminate.
  - split.
    + intros Hd (c & -> & Hin). simpl in Hin.
      repeat (destruct Hin as [<- | Hin]; [discriminate Hd|]). destruct Hin.
    + intros Hn. destruct code; try reflexivity.
      apply describe_unlisted. intros Hin. apply Hn. eauto.
  - intros c c' Hin Heq.
    destruct (decide (In c' ["Y"; "N"; "D"; "S"; "C"; "B"])) as [Hin' | Hout].
    + simpl in Hin, Hin'.
      repeat (destruct Hin as [<- | Hin]);
        repeat (destruct Hin' as [<- | Hin']);
        try reflexivity; try discriminate Heq; try destruct Hin; try destruct Hin'.
    + rewrite (describe_unlisted c') in Heq by exact Hout. simpl in Hin.
      repeat (destruct Hin as [<- | Hin]; [discriminate Heq|]). destruct Hin.
Qed.

Lemma dpv_text_identifies_code_witness :
  hashable (PList [PStr "Y"]) = false /\
  _map_dpv_confirmation (PList [PStr "Y"]) = Raise (Unhashable "list") /\
  hashable (PStr "D") = true /\
  _map_dpv_confirmation (PStr "D")
    = Ok "Primary confirmed, but secondary information is missing.".
Proof.
  split; [reflexivity|]. split.
  - apply (dpv_text_identifies_code (PList [PStr "Y"])). reflexivity.
  - split; [reflexivity|].
    apply (dpv_text_identifies_code (PStr "D")). reflexivity.
Defined.

(* ===================================================================== *)
(** ** Further properties of the request builder                          *)
(* ===================================================================== *)

Ltac filing_cases tys :=
  repeat match goal with
         | |- context [if existsb ?f poi_tags then _ else _] =>
             destruct (existsb f poi_tags)
         | |- context [if mem ?t tys then _ else _] => destruct (mem t tys)
         end.

Lemma file_component_missing st comp k :
  missing_key comp = Some k -> file_component st comp = Raise (KeyError k).
Proof.
  destruct st as [cs acc]. unfold missing_key, filed_as, file_component.
  destruct (types comp) as [tys|]; [|intros [= <-]; reflexivity].
  rewrite comp_key_Some. filing_cases tys; simpl;
    try discriminate;
    try (destruct (long_name comp); [discriminate | intros [= <-]; reflexivity]);
    try (destruct (short_name comp); [discriminate | intros [= <-]; reflexivity]).
Qed.

Lemma file_component_present cs acc comp :
  missing_key comp = None ->
  exists cs' acc',
    file_component (cs, acc) comp = Ok (cs', acc') /\
    forall s, s <> Poi ->
      slot_get s cs' = match contribution s comp with
                       | Some x => Some x
                       | None => slot_get s cs
                       end.
Proof.
  unfold missing_key, contribution, filed_as, file_component.
  destruct (types comp) as [tys|]; [|discriminate].
  rewrite comp_key_Some. filing_cases tys; simpl;
    try (destruct (long_name comp) as [n|] eqn:Hln; [|discriminate]);
    try (destruct (short_name comp) as [n|] eqn:Hsn; [|discriminate]);
    intros _; rewrite ?comp_key_Some;
    try (destruct (mem n acc));
    (eexists; eexists; split; [reflexivity|]);
    intros [] Hs; simpl; try rewrite Hln; try rewrite Hsn;
    try reflexivity; destruct Hs; reflexivity.
Qed.

Lemma first_missing_cons comp comps :
  first_missing (comp :: comps)
    = match missing_key comp with
      | Some k => Some k
      | None => first_missing comps
      end.
Proof. unfold first_missing. simpl. destruct (missing_key comp); reflexivity. Qed.

Lemma file_components_first_missing st comps :
  match first_missing comps with
  | Some k => file_components st comps = Raise (KeyError k)
  | None => exists st', file_components st comps = Ok st'
  end.
Proof.
  revert st. induction comps as [|comp comps IH]; intros [cs acc].
  - simpl. eauto.
  - rewrite first_missing_cons. cbn [file_components].
    destruct (missing_key comp) as [k|] eqn:Hk.
    + rewrite (file_component_missing _ _ _ Hk). reflexivity.
    + destruct (file_component_present cs acc _ Hk) as (cs' & acc' & -> & _).
      rewrite bind_Ok_l. apply IH.
Qed.

(** X10. The request builder fails only with [KeyError], for the first
    component that lacks [types] or the name key its category reads
    ([long_name] for a point of interest, locality or postal code,
    [short_name] for a state or country), and returns otherwise: a key
    that the category of a component does not read may be missing. *)
Theorem build_fails_on_missing_key geocode orig :
  match first_missing (default [] (address_components geocode)) with
  | Some k => build_validation_request geocode orig = Raise (KeyError k)
  | None => exists req, build_validation_request geocode orig = Ok req
  end.
Proof.
  unfold build_validation_request.
  pose proof (file_components_first_missing
                ({| locality := None; administrativeArea := None;
                    regionCode := None; postalCode := None |}, [])
                (default [] (address_components geocode))) as H.
  destruct (first_missing _) as [k|].
  - rewrite H. reflexivity.
  - destruct H as ([cs names] & ->). rewrite bind_Ok_l. eauto.
Qed.

Lemma build_fails_on_missing_key_witness :
  build_validation_request nameless_country_geocode "Springfield"
    = Raise (KeyError "short_name") /\
  exists req, build_validation_request springfield_geocode "Springfield" = Ok req.
Proof.
  split.
  - apply (build_fails_on_missing_key nameless_country_geocode "Springfield").
  - apply (build_fails_on_missing_key springfield_geocode "Springfield").
Defined.

Lemma filed_names_cons s comp comps :
  filed_names s (comp :: comps)
    = match contribution s comp with
      | Some x => x :: filed_names s comps
      | None => filed_names s comps
      end.
Proof. reflexivity. Qed.

Lemma file_components_slots comps cs acc cs' acc' s :
  s <> Poi ->
  file_components (cs, acc) comps = Ok (cs', acc') ->
  slot_get s cs' = match last (filed_names s comps) with
                   | Some x => Some x
                   | None => slot_get s cs
                   end.
Proof.
  intros Hs. revert cs acc.
  induction comps as [|comp comps IH]; intros cs acc H; cbn [file_components] in H.
  - injection H as <- _. reflexivity.
  - apply bind_Ok in H as ([cs1 acc1] & Hstep & Hrest).
    apply IH in Hrest. rewrite Hrest, filed_names_cons.
    destruct (missing_key comp) as [k|] eqn:Hk.
    { rewrite (file_component_missing _ _ _ Hk) in Hstep. discriminate Hstep. }
    destruct (file_component_present cs acc _ Hk) as (cs2 & acc2 & Hstep' & Hslot).
    rewrite Hstep' in Hstep. injection Hstep as -> ->.
    rewrite (Hslot s Hs).
    destruct (contribution s comp) as [x|]; [|reflexivity].
    rewrite last_cons. destruct (last (filed_names s comps)); reflexivity.
Qed.

Lemma option_same {A} (o : option A) :
  match o with Some x => Some x | None => None end = o.
Proof. destruct o; reflexivity. Qed.

(** X11. Each component is filed under the first category that matches,
    and within a category the last component wins: the request carries
    the last locality, state, country and postal code so filed, and
    region ["US"] when no component is filed as a country. *)
Theorem last_filed_component_wins geocode orig req :
  build_validation_request geocode orig = Ok req ->
  let comps := default [] (address_components geocode) in
  req_locality req = last (filed_names Locality comps) /\
  req_administrativeArea req = last (filed_names AdminArea comps) /\
  req_regionCode req = default "US" (last (filed_names Country comps)) /\
  req_postalCode req = last (filed_names PostalCode comps).
Proof.
  intros H comps. unfold build_validation_request in H. fold comps in H.
  apply bind_Ok in H as ([cs names] & Hloop & H). injection H as <-. simpl.
  pose proof (fun s Hs => file_components_slots _ _ _ _ _ s Hs Hloop) as Hslot.
  assert (H1 : Locality <> Poi) by discriminate.
  assert (H2 : AdminArea <> Poi) by discriminate.
  assert (H3 : Country <> Poi) by discriminate.
  assert (H4 : PostalCode <> Poi) by discriminate.
  apply Hslot in H1, H2, H3, H4.
  simpl in H1, H2, H3, H4. rewrite H1, H2, H3, H4, !option_same.
  repeat split.
Qed.

Lemma last_filed_component_wins_witness :
  exists req,
    build_validation_request springfield_geocode "Springfield" = Ok req /\
    req_locality req = Some "Springfield" /\
    req_administrativeArea req = Some "IL" /\
    req_regionCode req = "US" /\
    req_postalCode req = Some "62701".
Proof.
  eexists. split; [reflexivity|].
  apply (last_filed_component_wins springfield_geocode "Springfield" _ eq_refl).
Defined.

Lemma elem_of_build_address_lines pois orig formatted x :
  x ∈ build_address_lines pois orig formatted <->
  x = orig \/ x = formatted \/ x ∈ pois.
Proof.
  unfold build_address_lines.
  destruct (mem orig pois) eqn:Ho.
  - apply mem_true in Ho. destruct (mem formatted pois) eqn:Hf.
    + apply mem_true in Hf.
      split; [tauto | intros [-> | [-> | H]]; assumption].
    + rewrite elem_of_app, list_elem_of_singleton.
      split; [tauto | intros [-> | [-> | H]]; tauto].
  - destruct (mem formatted (orig :: pois)) eqn:Hf.
    + apply mem_true in Hf. rewrite elem_of_cons in Hf. rewrite elem_of_cons.
      split; [tauto | intros [-> | [-> | H]]; tauto].
    + rewrite elem_of_app, elem_of_cons, list_elem_of_singleton. tauto.
Qed.

(** X12. The address lines are the original text, the formatted address
    (the empty string when the geocoder gave none) and the names of the
    point-of-interest components, and nothing else: none of them is
    dropped and no other line appears. *)
Theorem address_lines_members geocode orig req :
  build_validation_request geocode orig = Ok req ->
  forall x,
    x ∈ addressLines req <->
    x = orig \/ x = default "" (formatted_address geocode) \/
    x ∈ poi_long_names (default [] (address_components geocode)).
Proof.
  unfold build_validation_request. intros H x.
  apply bind_Ok in H as ([cs names] & Hloop & H). injection H as <-. simpl.
  apply file_components_names in Hloop. simpl in Hloop.
  rewrite filter_fresh in Hloop. subst names.
  rewrite elem_of_build_address_lines, elem_of_nub. reflexivity.
Qed.

Lemma address_lines_members_witness :
  exists req,
    build_validation_request springfield_geocode "Springfield" = Ok req /\
    addressLines req = ["Springfield"; "City Hall"; ""] /\
    ("" ∈ addressLines req <->
     "" = "Springfield" \/ "" = default "" (formatted_address springfield_geocode) \/
     "" ∈ poi_long_names (default [] (address_components springfield_geocode))).
Proof.
  eexists. split; [reflexivity|]. split; [reflexivity|].
  apply (address_lines_members springfield_geocode "Springfield" _ eq_refl).
Defined.

(* ===================================================================== *)
(** ** Further properties of the batch driver                             *)
(* ===================================================================== *)

Lemma parsed_is_valid rt result orig region cass parsed :
  parse_validation_result rt result orig region cass = Ok parsed ->
  exists b, parsed !! "is_valid" = Some (PBool b).
Proof.
  intros H. apply parse_cases_escaped in H as [(status & ->) | ->];
    eexists; reflexivity.
Qed.


Section DriverMore.
Context (rt : runtime) {World : Type}.
Context (geocode_call : string -> string -> World -> res (list geocode_result) * World).
Context (validate_call : validation_request -> string -> World -> (pyval + string) * World).

(** One round of the loop, when it returns *)
Lemma process_row_inv col key cass st row w st' w' :
  process_row rt geocode_call validate_call col key cass st row w = (Ok st', w') ->
  exists cell response parsed valid,
    row !! col = Some cell /\
    validate_address_google geocode_call validate_call
      (py_str rt cell) key cass "US" w = (Ok response, w') /\
    parse_validation_result rt response (py_str rt cell) "US" true = Ok parsed /\
    parsed !! "is_valid" = Some (PBool valid) /\
    st' = {| results := results st ++ [parsed ∪ row];
             invalid_count := if valid then invalid_count st
                              else S (invalid_count st) |}.
Proof.
  unfold process_row. intros H.
  apply io_bind_Ok in H as (cell & w1 & Hcell & H).
  apply io_bind_Ok in H as (response & w2 & Hresp & H).
  apply io_bind_Ok in H as (parsed & w3 & Hparsed & H).
  apply io_bind_Ok in H as (is_valid & w4 & Hvalid & H).
  unfold io_ret in H. injection H as <- <-.
  unfold lift in Hcell, Hparsed, Hvalid.
  injection Hcell as Hcell <-. injection Hparsed as Hparsed <-.
  injection Hvalid as Hvalid <-.
  simpl in Hcell. destruct (row !! col) as [c|] eqn:Hc; [|discriminate].
  injection Hcell as ->.
  destruct (parsed_is_valid _ _ _ _ _ _ Hparsed) as (b & Hb).
  simpl in Hvalid. rewrite Hb in Hvalid. injection Hvalid as <-.
  exists cell, response, parsed, b. repeat split; assumption.
Qed.

Lemma process_rows_app col key cass st l1 l2 w :
  process_rows rt geocode_call validate_call col key cass st (l1 ++ l2) w
    = match process_rows rt geocode_call validate_call col key cass st l1 w with
      | (Ok st1, w1) => process_rows rt geocode_call validate_call col key cass st1 l2 w1
      | (Raise e, w1) => (Raise e, w1)
      end.
Proof.
  revert st w. induction l1 as [|row l1 IH]; intros st w; [reflexivity|].
  simpl. unfold io_bind.
  destruct (process_row rt geocode_call validate_call col key cass st row w)
    as [[st1|e] w1]; [apply IH | reflexivity].
Qed.

(** The first row on which the loop raises ends the batch. *)
Lemma batch_stops_at_failure col key cass pre row post w0 st w e w1 :
  process_rows rt geocode_call validate_call col key cass initial_state pre w0 = (Ok st, w) ->
  process_row rt geocode_call validate_call col key cass st row w = (Raise e, w1) ->
  process_addresses rt geocode_call validate_call (pre ++ row :: post) col key cass w0
    = (Raise e, w1).
Proof.
  intros Hpre Hrow. unfold process_addresses, io_bind.
  fold initial_state. rewrite process_rows_app, Hpre. simpl. unfold io_bind.
  rewrite Hrow. reflexivity.
Qed.

(** X13. A transport failure of the validation call does not stop the
    batch: the row is recorded with status ["API Error: "] followed by
    the message of the exception, not valid, with the address text as
    validated address, and counted as invalid. *)
Theorem transport_error_is_recorded col key cass st row w cell g gs w1 req msg w2 :
  row !! col = Some cell ->
  geocode_call (py_str rt cell) key w = (Ok (g :: gs), w1) ->
  build_validation_request g (py_str rt cell) = Ok req ->
  validate_call req key w1 = (inr msg, w2) ->
  process_row rt geocode_call validate_call col key cass st row w
    = (Ok {| results :=
               results st ++
               [error_row (py_str rt cell) ("API Error: " +:+ msg) ∪ row];
             invalid_count := S (invalid_count st) |}, w2).
Proof.
  intros Hcell Hg Hbuild Hv.
  unfold process_row, validate_address_google, geocode_address, io_bind, lift, io_ret.
  simpl. rewrite Hcell, Hg, Hbuild, Hv. reflexivity.
Qed.

(** X14. A geocoder that finds nothing stops the whole batch: the
    [ValueError] of [geocode_address] leaves [process_addresses], no
    validation call is made for that row, and neither the rows already
    done nor the rows behind it are returned. *)
Theorem no_geocode_result_aborts_batch col key cass pre row post w0 st w cell w1 :
  process_rows rt geocode_call validate_call col key cass initial_state pre w0 = (Ok st, w) ->
  row !! col = Some cell ->
  geocode_call (py_str rt cell) key w = (Ok [], w1) ->
  process_addresses rt geocode_call validate_call (pre ++ row :: post) col key cass w0
    = (Raise (ValueError "No results found for address"), w1).
Proof.
  intros Hpre Hcell Hg. apply (batch_stops_at_failure _ _ _ _ _ _ _ _ _ _ _ Hpre).
  unfold process_row, validate_address_google, geocode_address, io_bind, lift.
  simpl. rewrite Hcell, Hg. reflexivity.
Qed.

(** X15. When the sheet has no column of the chosen name, the first row
    stops the batch with [KeyError], before any network call. *)
Theorem missing_column_aborts_batch col key cass row post w :
  row !! col = None ->
  process_addresses rt geocode_call validate_call (row :: post) col key cass w
    = (Raise (KeyError col), w).
Proof.
  intros Hcell.
  apply (batch_stops_at_failure col key cass [] row post w initial_state w);
    [reflexivity|].
  unfold process_row, io_bind, lift. simpl. rewrite Hcell. reflexivity.
Qed.

Lemma counts_invalid_union parsed row valid :
  parsed !! "is_valid" = Some (PBool valid) ->
  counts_invalid (parsed ∪ row) = negb valid.
Proof.
  intros H. unfold counts_invalid.
  rewrite (lookup_union_Some_l _ _ _ _ H). destruct valid; reflexivity.
Qed.

Lemma count_invalid_snoc rows out :
  count_invalid (rows ++ [out])
    = count_invalid rows + (if counts_invalid out then 1 else 0).
Proof.
  unfold count_invalid. rewrite List.filter_app, length_app. simpl.
  destruct (counts_invalid out); reflexivity.
Qed.

Lemma process_rows_counts col key cass df st w st' w' :
  process_rows rt geocode_call validate_call col key cass st df w = (Ok st', w') ->
  invalid_count st = count_invalid (results st) ->
  invalid_count st' = count_invalid (results st') /\
  length (results st') = length (results st) + length df.
Proof.
  revert st w. induction df as [|row df IH]; intros st w H Hinv; simpl in H.
  - unfold io_ret in H. injection H as <- _. split; [exact Hinv|].
    simpl. rewrite Nat.add_0_r. reflexivity.
  - apply io_bind_Ok in H as (st1 & w1 & Hrow & Hrest).
    apply process_row_inv in Hrow
      as (cell & response & parsed & valid & _ & _ & _ & Hvalid & ->).
    apply IH in Hrest as [Hcount Hlen].
    + split; [exact Hcount|]. rewrite Hlen. simpl.
      rewrite length_app. simpl. rewrite <- Nat.add_assoc. reflexivity.
    + simpl. rewrite count_invalid_snoc, (counts_invalid_union _ _ _ Hvalid), Hinv.
      destruct valid; simpl; [rewrite Nat.add_0_r | rewrite Nat.add_1_r]; reflexivity.
Qed.

(** X16. When the loop is through, its counter of invalid addresses is
    the number of returned rows whose [is_valid] is [False], and there is
    one returned row per input row. *)
Theorem invalid_count_counts_rows col key cass df w st w' :
  process_rows rt geocode_call validate_call col key cass initial_state df w = (Ok st, w') ->
  invalid_count st = count_invalid (results st) /\
  length (results st) = length df /\
  invalid_count st <= length df.
Proof.
  intros H. apply process_rows_counts in H as [Hcount Hlen]; [|reflexivity].
  simpl in Hlen. split; [exact Hcount|]. split; [exact Hlen|].
  rewrite Hcount, <- Hlen. unfold count_invalid. apply List.filter_length_le.
Qed.

Lemma classified_with_defaults_union col key row out :
  classified_with_defaults rt geocode_call validate_call col key row out ->
  exists cell response parsed,
    row !! col = Some cell /\
    parse_validation_result rt response (py_str rt cell) "US" true = Ok parsed /\
    out = parsed ∪ row.
Proof.
  intros (cell & response & parsed & Hcell & _ & Hparsed & ->). eauto 10.
Qed.

Lemma sheet_rows df col key cass w outs w' :
  process_addresses rt geocode_call validate_call df col key cass w = (Ok outs, w') ->
  Forall2 (classified_with_defaults rt geocode_call validate_call col key) df outs.
Proof.
  intros H. unfold process_addresses in H.
  apply io_bind_Ok in H as (st & w1 & Hloop & H).
  unfold io_ret in H. injection H as <- _.
  apply process_rows_Ok in Hloop as (outs & -> & Hall). exact Hall.
Qed.


(** X18. Every output row carries the address text as
    [original_address], a boolean [is_valid] and a non-empty
    [validation_status], also when the validation call failed. *)
Theorem output_rows_labelled df col key cass w outs w' :
  process_addresses rt geocode_call validate_call df col key cass w = (Ok outs, w') ->
  Forall2 (well_labelled rt col) df outs.
Proof.
  intros H. apply sheet_rows in H.
  eapply Forall2_impl; [exact H|]. intros row out Hrow.
  apply classified_with_defaults_union in Hrow
    as (cell & response & parsed & Hcell & Hparsed & ->).
  unfold well_labelled.
  apply parse_cases in Hparsed as [(e & _ & ->) | [(e & _ & ->) | [_ ->]]].
  - exists cell, false, ("API Error: " +:+ py_str rt e).
    split; [exact Hcell|]. repeat split; try (apply lookup_union_Some_l; reflexivity).
    discriminate.
  - exists cell, false, ("Parse Error: " +:+ exn_str rt e).
    split; [exact Hcell|]. repeat split; try (apply lookup_union_Some_l; reflexivity).
    discriminate.
  - exists cell, (snd (granularity_status (granularity_of response))),
      (status_of response).
    split; [exact Hcell|]. repeat split; try (apply lookup_union_Some_l; reflexivity).
    apply status_of_nonempty.
Qed.

(** X19. Whatever [enable_cass] the driver is called with, an output row
    that the classifier marked [is_confirmed = True] is valid and DPV
    confirmed: the classifier always runs with CASS on for the US.  (An
    input column named ["is_confirmed"] would show through on an error
    row, hence the condition on the input row.) *)
Theorem confirmed_rows_are_dpv_confirmed df col key cass w outs w' :
  process_addresses rt geocode_call validate_call df col key cass w = (Ok outs, w') ->
  Forall2 (fun row out => row !! "is_confirmed" = None -> confirmed_is_backed out)
    df outs.
Proof.
  intros H. apply sheet_rows in H.
  eapply Forall2_impl; [exact H|]. intros row out Hrow Hcol Hc.
  apply classified_with_defaults_union in Hrow
    as (cell & response & parsed & _ & Hparsed & ->).
  apply parse_cases_escaped in Hparsed as [(status & ->) | ->].
  - rewrite lookup_union_r in Hc by reflexivity. congruence.
  - rewrite lookup_union_l' in Hc by (eexists; reflexivity).
    apply classify_confirmed_facts in Hc as [Hvalid Hdpv].
    split.
    + apply lookup_union_Some_l, Hvalid.
    + apply lookup_union_Some_l, Hdpv; reflexivity.
Qed.

End DriverMore.

Lemma transport_error_is_recorded_witness :
  process_row cpython canned_geocode failing_validate "address" "key" false
    initial_state {["address" := PStr "Harvard"]} 0
  = (Ok {| results :=
             [error_row "Harvard" "API Error: 503 Server Error"
                ∪ {["address" := PStr "Harvard"]}];
           invalid_count := 1 |}, 2).
Proof.
  eapply (transport_error_is_recorded cpython canned_geocode failing_validate
            "address" "key" false initial_state {["address" := PStr "Harvard"]} 0
            (PStr "Harvard") harvard_geocode [] 1 _ "503 Server Error" 2);
    reflexivity.
Defined.

Lemma no_geocode_result_aborts_batch_witness :
  process_addresses cpython fading_geocode canned_validate
    (one_row_sheet ++ {["address" := PStr "Nowhere"]} :: one_row_sheet)
    "address" "key" true 0
  = (Raise (ValueError "No results found for address"), 3).
Proof.
  eapply (no_geocode_result_aborts_batch cpython fading_geocode canned_validate
            "address" "key" true one_row_sheet {["address" := PStr "Nowhere"]}
            one_row_sheet 0);
    reflexivity.
Defined.

Lemma missing_column_aborts_batch_witness :
  process_addresses cpython canned_geocode canned_validate
    (columnless_row :: one_row_sheet) "address" "key" true 0
  = (Raise (KeyError "address"), 0).
Proof.
  apply (missing_column_aborts_batch cpython canned_geocode canned_validate
           "address" "key" true columnless_row one_row_sheet 0).
  reflexivity.
Defined.

Lemma invalid_count_counts_rows_witness :
  exists st,
    process_rows cpython canned_geocode failing_validate "address" "key" true
      initial_state (one_row_sheet ++ clashing_sheet) 0 = (Ok st, 4) /\
    invalid_count st = 2 /\
    invalid_count st = count_invalid (results st) /\
    length (results st) = 2.
Proof.
  eexists. split; [reflexivity|]. split; [reflexivity|].
  destruct (invalid_count_counts_rows cpython canned_geocode failing_validate
              "address" "key" true (one_row_sheet ++ clashing_sheet) 0 _ _ eq_refl)
    as (Hcount & Hlen & _).
  split; [exact Hcount | exact Hlen].
Defined.


Lemma output_rows_labelled_witness :
  exists out,
    process_addresses cpython canned_geocode failing_validate one_row_sheet
      "address" "key" true 0 = (Ok [out], 2) /\
    out !! "validation_status" = Some (PStr "API Error: 503 Server Error") /\
    Forall2 (well_labelled cpython "address") one_row_sheet [out].
Proof.
  eexists. split; [reflexivity|]. split; [reflexivity|].
  apply (output_rows_labelled cpython canned_geocode failing_validate
           one_row_sheet "address" "key" true 0 _ 2).
  reflexivity.
Defined.

Lemma confirmed_rows_are_dpv_confirmed_witness :
  exists out,
    process_addresses cpython canned_geocode confirming_validate one_row_sheet
      "address" "key" false 0 = (Ok [out], 2) /\
    out !! "is_confirmed" = Some (PBool true) /\
    out !! "is_dpv_confirmed" = Some (PBool true).
Proof.
  eexists. split; [reflexivity|]. split; [reflexivity|].
  pose proof (confirmed_rows_are_dpv_confirmed cpython canned_geocode
                confirming_validate one_row_sheet "address" "key" false 0 _ 2 eq_refl)
    as Hall.
  apply Forall2_cons_1 in Hall as [Hrow _].
  apply (Hrow eq_refl eq_refl).
Defined.
